(** * MedGuardian: the request pipeline of [main.py], embedded and verified

    The service has one endpoint, [process_patient_data].  It gathers drug
    information for every medication (one outbound search per medication),
    asks a text-generation service for a risk narrative, classifies the
    narrative by keyword search and assembles the response.  Without
    credentials the two outbound collaborators are replaced by local,
    deterministic substitutes ([MOCK_MODE]).

    Python values are modelled as follows.
    - [str]: the list of its Unicode code points.
    - [int]: [Z]; [float]: a binary64 [float].
    - decoded JSON (what [response.json()] hands back): the type [json].
    - [async def f(...)]: a computation in the monad [IO], which threads the
      outside world (the outbound calls made so far and the lines printed)
      and propagates Python exceptions; [await] is the monad's bind.
    - the outside world answers each outbound call through [net], which sees
      the calls made before it; nothing is assumed about its answers. *)

From Stdlib Require Import ZArith NArith QArith List Bool String Ascii Floats Lia.
Import ListNotations.

Set Implicit Arguments.
Set Warnings "-register-all".

Local Open Scope Z_scope.

(** ** Python strings *)

Definition codepoint := N.
Definition str := list codepoint.

(** An ASCII literal of the source, as a Python string. *)
Definition lit (s : string) : str := map N_of_ascii (list_ascii_of_string s).

Arguments lit : simpl never.

Definition is_ascii (c : codepoint) : bool := (c <? 128)%N.

Fixpoint str_eqb (a b : str) : bool :=
  match a, b with
  | [], [] => true
  | x :: a', y :: b' => (x =? y)%N && str_eqb a' b'
  | _, _ => false
  end.

(** [sep.join(parts)] *)
Fixpoint join (sep : str) (parts : list str) : str :=
  match parts with
  | [] => []
  | [p] => p
  | p :: rest => p ++ sep ++ join sep rest
  end.

(** [s.startswith(t)] *)
Fixpoint starts_with (t s : str) : bool :=
  match t, s with
  | [], _ => true
  | _ :: _, [] => false
  | a :: t', b :: s' => (a =? b)%N && starts_with t' s'
  end.

(** [t in s] for two strings: [t] occurs in [s] at some offset. *)
Fixpoint contains (t s : str) : bool :=
  starts_with t s ||
  match s with
  | [] => false
  | _ :: s' => contains t s'
  end.

(** What [t in s] means. *)
Definition substring (t s : str) : Prop := exists pre post, s = pre ++ t ++ post.

(** The lower-case mapping of an ASCII code point: [A-Z] move to [a-z]. *)
Definition lower_ascii (c : codepoint) : codepoint :=
  if ((65 <=? c) && (c <=? 90))%N then (c + 32)%N else c.

(** A case table that maps every code point outside ASCII to itself. *)
Definition identity_case_table (before : str) (c : codepoint) (after : str) : str := [c].

(** ** Python values

    The values [json.loads] produces.  Dictionaries keep their entries in
    order; a key is looked up from the front. *)

Inductive json : Type :=
| JNull
| JBool (b : bool)
| JInt (z : Z)
| JFloat (f : float)
| JStr (s : str)
| JList (items : list json)
| JDict (entries : list (str * json)).

Fixpoint dict_get (entries : list (str * json)) (key : str) : option json :=
  match entries with
  | [] => None
  | (k, v) :: rest => if str_eqb k key then Some v else dict_get rest key
  end.

(** Truth value of a Python object, as [if v:] tests it. *)
Definition truthy (v : json) : bool :=
  match v with
  | JNull => false
  | JBool b => b
  | JInt z => negb (z =? 0)
  | JFloat f => negb (PrimFloat.eqb f 0%float)
  | JStr s => match s with [] => false | _ => true end
  | JList l => match l with [] => false | _ => true end
  | JDict d => match d with [] => false | _ => true end
  end.

(** A measurement of the vitals mapping: validated input holds floats, the
    placeholder of the endpoint holds the integers it is written with. *)
Inductive number : Type :=
| NInt (z : Z)
| NFloat (f : float).

(** ** Exceptions

    Every constructor stands for an instance of a subclass of [Exception];
    that is all [except Exception] looks at.  [RequestError] covers what the
    HTTP client raises before a response exists (time-out, connection or
    protocol failure); [SubscriptError] the [TypeError], [KeyError] or
    [IndexError] of [v[k]]; [SliceError] and [IterError] the errors of
    [v[:n]] and of iterating [v]. *)
Inductive exn : Type :=
| RequestError (description : str)
| HTTPStatusError (status : Z)
| JSONDecodeError
| AttributeError (v : json) (attribute : str)
| SubscriptError (v : json) (key : json)
| SliceError (v : json)
| IterError (v : json)
| HTTPException (status_code : Z) (detail : str).

(** ** The request model *)

Record PatientData : Type := {
  patient_id : str;
  age : Z;
  medications : list str;
  allergies : list str;
  vitals : option (list (str * number))
}.

Definition set_vitals (p : PatientData) (v : option (list (str * number))) : PatientData :=
  {| patient_id := patient_id p; age := age p; medications := medications p;
     allergies := allergies p; vitals := v |}.

(** ** Outbound calls *)

Record search_params : Type := {
  api_key : option str;
  query : str;
  search_depth : str;
  include_domains : list str
}.

(** The values that fill the holes of the prompt template of
    [analyze_risks_with_groq], in the order of the template; rendering them
    into the text ([str] of an integer, of the vitals mapping and of the list
    of results) is the interpreter's. *)
Record prompt : Type := {
  prompt_patient_id : str;
  prompt_age : Z;
  prompt_medications : str;
  prompt_allergies : str;
  prompt_vitals : option (list (str * number));
  prompt_drug_info : list json
}.

Record message : Type := { role : str; content : prompt }.

Record chat_payload : Type := {
  model : str;
  messages : list message;
  temperature : Q;
  max_tokens : Z
}.

Inductive request : Type :=
| GET (url : str) (params : search_params) (timeout : Q)
| POST (url : str) (headers : list (str * str)) (payload : chat_payload) (timeout : Q).

(** What the HTTP client hands back for one call: an exception, or a response
    with its status and its body ([None] when the body is not JSON). *)
Record http_response : Type := { status : Z; body : option json }.

Inductive reply : Type :=
| NoResponse (e : exn)
| Response (r : http_response).

(** ** The outside world and the monad of [async] code *)

Record world : Type := { calls : list request; stdout : list str }.

Inductive result (A : Type) : Type :=
| Val (a : A)
| Raise (e : exn).
Arguments Raise {A} e.

Definition IO (A : Type) : Type := world -> result A * world.

Definition ret {A} (a : A) : IO A := fun w => (Val a, w).

Definition raise {A} (e : exn) : IO A := fun w => (Raise e, w).

Definition bind {A B} (m : IO A) (k : A -> IO B) : IO B :=
  fun w =>
    match m w with
    | (Val a, w') => k a w'
    | (Raise e, w') => (Raise e, w')
    end.

(** [try: body / except Exception as e: handler(e)] *)
Definition try_except {A} (body : IO A) (handler : exn -> IO A) : IO A :=
  fun w =>
    match body w with
    | (Val a, w') => (Val a, w')
    | (Raise e, w') => handler e w'
    end.

Declare Scope io_scope.
Delimit Scope io_scope with io.
Notation "x <- m ;; k" := (bind m (fun x => k))
  (at level 61, m at next level, right associativity) : io_scope.
Notation "m ;; k" := (bind m (fun _ => k))
  (at level 61, right associativity) : io_scope.
Open Scope io_scope.

(** [print(line)] *)
Definition print (line : str) : IO unit :=
  fun w => (Val tt, {| calls := calls w; stdout := stdout w ++ [line] |}).

(** ** Operations on Python values that may raise *)

(** [v.get(key, default)]: only a dictionary has the method. *)
Definition py_get (v : json) (key : str) (default : json) : IO json :=
  match v with
  | JDict d => ret (match dict_get d key with Some x => x | None => default end)
  | _ => raise (AttributeError v (lit "get"))
  end.

(** [v[:n]]: lists and strings can be sliced. *)
Definition py_slice_to (n : nat) (v : json) : IO json :=
  match v with
  | JList l => ret (JList (firstn n l))
  | JStr s => ret (JStr (firstn n s))
  | _ => raise (SliceError v)
  end.

(** [v[key]] for a string key: only a dictionary that has the key answers. *)
Definition py_getitem_key (v : json) (key : str) : IO json :=
  match v with
  | JDict d =>
      match dict_get d key with
      | Some x => ret x
      | None => raise (SubscriptError v (JStr key))
      end
  | _ => raise (SubscriptError v (JStr key))
  end.

(** [v[0]]: the first item of a list, the first character of a string. *)
Definition py_getitem_0 (v : json) : IO json :=
  match v with
  | JList (x :: _) => ret x
  | JStr (c :: _) => ret (JStr [c])
  | _ => raise (SubscriptError v (JInt 0))
  end.

(** The items [list.extend(v)] appends: the items of a list, the characters
    of a string, the keys of a dictionary. *)
Definition py_iter (v : json) : IO (list json) :=
  match v with
  | JList l => ret l
  | JStr s => ret (map (fun c => JStr [c]) s)
  | JDict d => ret (map (fun kv => JStr (fst kv)) d)
  | _ => raise (IterError v)
  end.

(** Looking up a method of [str] on [v], as [v.lower()] does first. *)
Definition str_method (name : string) (v : json) : IO str :=
  match v with
  | JStr s => ret s
  | _ => raise (AttributeError v (lit name))
  end.

(** [response.raise_for_status()]: a status outside 200..299 raises. *)
Definition raise_for_status (r : http_response) : IO unit :=
  if (200 <=? status r) && (status r <=? 299) then ret tt
  else raise (HTTPStatusError (status r)).

(** [response.json()] *)
Definition response_json (r : http_response) : IO json :=
  match body r with
  | Some v => ret v
  | None => raise JSONDecodeError
  end.

(** ** Mock substitutes *)

Definition mock_drug_info (drug_name : str) : IO json :=
  ret (JList [JDict [
    (lit "title", JStr (lit "Information about " ++ drug_name));
    (lit "content", JStr (lit "Common interactions for " ++ drug_name
                          ++ lit " include drowsiness and dizziness."));
    (lit "url", JStr (lit "https://example.com/drugs"))]]).

Definition mock_risk_analysis (patient_data : PatientData) : IO str :=
  let risks : list str := [] in
  let risks :=
    if age patient_data >? 65
    then risks ++ [lit "Elderly patient - increased risk"] else risks in
  let risks :=
    if Z.of_nat (List.length (medications patient_data)) >? 2
    then risks ++ [lit "Multiple medications - potential interactions"] else risks in
  let risks :=
    match allergies patient_data with
    | _ :: _ => risks ++ [lit "Known allergies: " ++ join (lit ", ") (allergies patient_data)]
    | [] => risks
    end in
  match risks with
  | _ :: _ => ret (lit "HIGH RISK: " ++ join (lit "; ") risks)
  | [] => ret (lit "LOW RISK: No significant risk factors identified")
  end.

(** The response of the endpoint. *)
Record response_payload : Type := {
  resp_patient_id : str;
  risk_level : str;
  risk_analysis : str;
  analyzed_medications : Z;
  timestamp : str;
  mode : str
}.

Definition search_url : str := lit "https://api.tavily.com/search".
Definition groq_url : str := lit "https://api.groq.com/openai/v1/chat/completions".

(** ** Sample patients and sample worlds

    Concrete inputs on which the statements below are exercised. *)

Definition empty_world : world := {| calls := []; stdout := [] |}.

Definition sample_clock (w : world) : str := lit "2025-01-01T12:00:00.000000".

Definition sample_str_of_exn (e : exn) : str :=
  match e with
  | RequestError description => description
  | HTTPException _ detail => detail
  | _ => lit "error"
  end.

Definition sample_key : option str := Some (lit "secret").

(** The first patient of [test_script.py]. *)
Definition patient_MH001 : PatientData :=
  {| patient_id := lit "MH-001";
     age := 25;
     medications := [lit "ibuprofen"];
     allergies := [];
     vitals := Some [(lit "SpO2", NFloat 99); (lit "heart_rate", NFloat 70)] |}.

(** The second patient of [test_script.py]. *)
Definition patient_MH002 : PatientData :=
  {| patient_id := lit "MH-002";
     age := 68;
     medications := [lit "warfarin"; lit "aspirin"; lit "lisinopril"; lit "metformin"];
     allergies := [lit "penicillin"];
     vitals := Some [(lit "SpO2", NFloat 94); (lit "heart_rate", NFloat 105)] |}.

(** A request that leaves [vitals] out. *)
Definition patient_without_vitals : PatientData :=
  {| patient_id := lit "MH-004";
     age := 45;
     medications := [lit "aspirin"; lit "lisinopril"];
     allergies := [lit "penicillin"];
     vitals := None |}.

Definition measured_vitals : list (str * number) :=
  [(lit "SpO2", NFloat 94); (lit "heart_rate", NFloat 105)].

Definition search_hit (title : string) : json :=
  JDict [(lit "title", JStr (lit title));
         (lit "content", JStr (lit "Interaction notes."));
         (lit "url", JStr (lit "https://drugs.com/"))].

(** A search response with three results. *)
Definition search_response_ok : http_response :=
  {| status := 200;
     body := Some (JDict [(lit "query", JStr (lit "q"));
                          (lit "results",
                           JList [search_hit "first"; search_hit "second";
                                  search_hit "third"])]) |}.

(** A chat completion whose message carries [text] as its content. *)
Definition chat_response (text : json) : http_response :=
  {| status := 200;
     body := Some (JDict [(lit "choices",
                           JList [JDict [(lit "index", JInt 0);
                                         (lit "message",
                                          JDict [(lit "role", JStr (lit "assistant"));
                                                 (lit "content", text)])]])]) |}.

(** The first search times out, later searches succeed, the generation
    service answers with a text. *)
Definition net_first_search_times_out (hist : list request) (req : request) : reply :=
  match req with
  | GET _ _ _ =>
      match hist with
      | [] => NoResponse (RequestError (lit "timed out"))
      | _ :: _ => Response search_response_ok
      end
  | POST _ _ _ _ => Response (chat_response (JStr (lit "Monitor blood pressure.")))
  end.

(** Every search times out and the generation service answers with a
    message whose content is [null]. *)
Definition net_search_down_null_content (hist : list request) (req : request) : reply :=
  match req with
  | GET _ _ _ => NoResponse (RequestError (lit "timed out"))
  | POST _ _ _ _ => Response (chat_response JNull)
  end.

(** Searches succeed, the generation service is unavailable. *)
Definition net_generation_unavailable (hist : list request) (req : request) : reply :=
  match req with
  | GET _ _ _ => Response search_response_ok
  | POST _ _ _ _ => Response {| status := 503; body := None |}
  end.

(** A search response whose [results] is a text instead of a list. *)
Definition search_response_text_results : http_response :=
  {| status := 200; body := Some (JDict [(lit "results", JStr (lit "none"))]) |}.

(** Searches answer with a text as [results], the generation service with
    a narrative. *)
Definition net_results_as_text (hist : list request) (req : request) : reply :=
  match req with
  | GET _ _ _ => Response search_response_text_results
  | POST _ _ _ _ => Response (chat_response (JStr (lit "Not Dangerous at this dose.")))
  end.

(** [patient_without_vitals] with other medication names and with vitals. *)
Definition patient_renamed : PatientData :=
  {| patient_id := lit "MH-004";
     age := 45;
     medications := [lit "ibuprofen"; lit "metformin"];
     allergies := [lit "penicillin"];
     vitals := Some measured_vitals |}.

(** ** The service *)

Section Service.

(** [str.lower()] rewrites each character on its own; outside ASCII the
    interpreter's Unicode tables decide the replacement, which may span
    several code points and, for capital sigma, looks at the characters
    around it.  The tables are not part of this repository. *)
Variable unicode_lower : str -> codepoint -> str -> str.

(** [str(e)], the message of an exception. *)
Variable str_of_exn : exn -> str.

(** The answer of the outside world to an outbound call, given the calls
    made before it. *)
Variable net : list request -> request -> reply.

(** [datetime.datetime.now().isoformat()], read in a given world. *)
Variable now_isoformat : world -> str.

(** The two credentials, as [os.getenv] returned them at start-up. *)
Variables GROQ_API_KEY TAVILY_API_KEY : option str.

Definition lower_char (before : str) (c : codepoint) (after : str) : str :=
  if is_ascii c then [lower_ascii c] else unicode_lower before c after.

Fixpoint lower_from (before s : str) : str :=
  match s with
  | [] => []
  | c :: rest => lower_char before c rest ++ lower_from (before ++ [c]) rest
  end.

(** [s.lower()] *)
Definition lower (s : str) : str := lower_from [] s.

(** [not key]: the variable is unset or empty. *)
Definition missing (key : option str) : bool :=
  match key with
  | None => true
  | Some [] => true
  | Some (_ :: _) => false
  end.

Definition MOCK_MODE : bool := missing GROQ_API_KEY || missing TAVILY_API_KEY.

(** A key inside an f-string. *)
Definition format_key (key : option str) : str :=
  match key with
  | Some k => k
  | None => lit "None"
  end.

(** One outbound call through [httpx.AsyncClient]: the call is recorded,
    the world answers. *)
Definition send (req : request) : IO http_response :=
  fun w =>
    let w' := {| calls := calls w ++ [req]; stdout := stdout w |} in
    match net (calls w) req with
    | NoResponse e => (Raise e, w')
    | Response r => (Val r, w')
    end.

Definition clock_now : IO str := fun w => (Val (now_isoformat w), w).

Definition search_request (drug_name : str) : request :=
  GET search_url
      {| api_key := TAVILY_API_KEY;
         query := drug_name ++ lit " drug interactions medical";
         search_depth := lit "advanced";
         include_domains := [lit "drugs.com"; lit "medlineplus.gov"; lit "mayoclinic.org"] |}
      10.

Definition search_drug_info (drug_name : str) : IO json :=
  if MOCK_MODE then mock_drug_info drug_name
  else
    try_except
      (response <- send (search_request drug_name) ;;
       raise_for_status response ;;
       data <- response_json response ;;
       results <- py_get data (lit "results") (JList []) ;;
       py_slice_to 2 results)
      (fun e =>
         print (lit "Error in drug info search: " ++ str_of_exn e) ;;
         ret (JList [])).

Definition build_prompt (patient_data : PatientData) (drug_info : list json) : prompt :=
  {| prompt_patient_id := patient_id patient_data;
     prompt_age := age patient_data;
     prompt_medications := join (lit ", ") (medications patient_data);
     prompt_allergies :=
       match allergies patient_data with
       | _ :: _ => join (lit ", ") (allergies patient_data)
       | [] => lit "None"
       end;
     prompt_vitals := vitals patient_data;
     prompt_drug_info := drug_info |}.

Definition generation_request (patient_data : PatientData) (drug_info : list json) : request :=
  POST groq_url
       [(lit "Authorization", lit "Bearer " ++ format_key GROQ_API_KEY);
        (lit "Content-Type", lit "application/json")]
       {| model := lit "mixtral-8x7b-32768";
          messages := [{| role := lit "user"; content := build_prompt patient_data drug_info |}];
          temperature := 3 # 10;
          max_tokens := 500 |}
       30.

Definition fallback_analysis : str := lit "Unable to perform risk analysis".

Definition analyze_risks_with_groq (patient_data : PatientData) (drug_info : list json)
  : IO json :=
  if MOCK_MODE then
    text <- mock_risk_analysis patient_data ;;
    ret (JStr text)
  else
    try_except
      (response <- send (generation_request patient_data drug_info) ;;
       raise_for_status response ;;
       data <- response_json response ;;
       choices <- py_getitem_key data (lit "choices") ;;
       choice <- py_getitem_0 choices ;;
       msg <- py_getitem_key choice (lit "message") ;;
       py_getitem_key msg (lit "content"))
      (fun e =>
         print (lit "Error in risk analysis: " ++ str_of_exn e) ;;
         ret (JStr fallback_analysis)).

(** ** Risk classifier

    The endpoint calls [get_risk_level] with whatever the narrator
    returned; on anything but a string [analysis.lower()] raises
    [AttributeError], which [process_patient_data] models at the call
    with [str_method]. *)

Definition high_risk_terms : list str :=
  [lit "high risk"; lit "severe"; lit "dangerous"; lit "critical"; lit "emergency"].

Definition get_risk_level (analysis : str) : str :=
  if existsb (fun term => contains term (lower analysis)) high_risk_terms
  then lit "HIGH RISK"
  else lit "LOW RISK".

(** ** The endpoint *)

Definition placeholder_vitals : list (str * number) :=
  [(lit "SpO2", NInt 98); (lit "heart_rate", NInt 72)].

(** The loop over the medications, with the list it extends. *)
Fixpoint gather_drug_info (meds : list str) (drug_info : list json) : IO (list json) :=
  match meds with
  | [] => ret drug_info
  | medication :: rest =>
      info <- search_drug_info medication ;;
      if truthy info then
        items <- py_iter info ;;
        gather_drug_info rest (drug_info ++ items)
      else gather_drug_info rest drug_info
  end.

Definition process_patient_data (patient_data : PatientData) : IO response_payload :=
  try_except
    (let patient_data :=
       match vitals patient_data with
       | None => set_vitals patient_data (Some placeholder_vitals)
       | Some _ => patient_data
       end in
     drug_info <- gather_drug_info (medications patient_data) [] ;;
     risk_analysis <- analyze_risks_with_groq patient_data drug_info ;;
     analysis <- str_method "lower" risk_analysis ;;
     let risk_level := get_risk_level analysis in
     stamp <- clock_now ;;
     ret {| resp_patient_id := patient_id patient_data;
            risk_level := risk_level;
            risk_analysis := analysis;
            analyzed_medications := Z.of_nat (List.length (medications patient_data));
            timestamp := stamp;
            mode := if MOCK_MODE then lit "MOCK" else lit "LIVE" |})
    (fun e => raise (HTTPException 500 (str_of_exn e))).

(** ** Specification vocabulary *)

(** The three rules of the offline narrative, in the order they are tried. *)
Inductive risk_flag : Type := Elderly | MultipleMedications | KnownAllergies.

Definition flag_fires (p : PatientData) (f : risk_flag) : bool :=
  match f with
  | Elderly => 65 <? age p
  | MultipleMedications => (2 <? List.length (medications p))%nat
  | KnownAllergies => negb (Nat.eqb (List.length (allergies p)) 0)
  end.

Definition flag_text (p : PatientData) (f : risk_flag) : str :=
  match f with
  | Elderly => lit "Elderly patient - increased risk"
  | MultipleMedications => lit "Multiple medications - potential interactions"
  | KnownAllergies => lit "Known allergies: " ++ join (lit ", ") (allergies p)
  end.

Definition fired_flags (p : PatientData) : list risk_flag :=
  filter (flag_fires p) [Elderly; MultipleMedications; KnownAllergies].

Definition low_risk_sentence : str :=
  lit "LOW RISK: No significant risk factors identified".

(** The offline narrative, said with the flags. *)
Definition flag_narrative (p : PatientData) : str :=
  match fired_flags p with
  | [] => low_risk_sentence
  | _ :: _ => lit "HIGH RISK: " ++ join (lit "; ") (map (flag_text p) (fired_flags p))
  end.

(** The one fabricated result of the offline search. *)
Definition mock_result (drug_name : str) : json :=
  JDict [
    (lit "title", JStr (lit "Information about " ++ drug_name));
    (lit "content", JStr (lit "Common interactions for " ++ drug_name
                          ++ lit " include drowsiness and dizziness."));
    (lit "url", JStr (lit "https://example.com/drugs"))].

(** The response the endpoint assembles from a narrative. *)
Definition assemble (p : PatientData) (analysis stamp : str) : response_payload :=
  {| resp_patient_id := patient_id p;
     risk_level := get_risk_level analysis;
     risk_analysis := analysis;
     analyzed_medications := Z.of_nat (List.length (medications p));
     timestamp := stamp;
     mode := if MOCK_MODE then lit "MOCK" else lit "LIVE" |}.

(** An outbound call failed: the client raised, or the status is not 2xx. *)
Definition call_failed (r : reply) : bool :=
  match r with
  | NoResponse _ => true
  | Response resp => negb ((200 <=? status resp) && (status resp <=? 299))
  end.

(** The [results] array of a successful search response. *)
Definition results_array (r : reply) : option (list json) :=
  match r with
  | NoResponse _ => None
  | Response resp =>
      if call_failed r then None
      else match body resp with
           | Some (JDict d) =>
               match dict_get d (lit "results") with
               | Some (JList l) => Some l
               | _ => None
               end
           | _ => None
           end
  end.

(** The search of one medication ends in the [except] branch: the call
    failed, the body is not JSON, the body is not an object, or its
    [results] can be neither sliced nor defaulted. *)
Definition search_raises (r : reply) : bool :=
  match r with
  | NoResponse _ => true
  | Response resp =>
      if call_failed r then true
      else match body resp with
           | None => true
           | Some (JDict d) =>
               match dict_get d (lit "results") with
               | None | Some (JList _) | Some (JStr _) => false
               | Some _ => true
               end
           | Some _ => true
           end
  end.

(** The answers of the world to one search per medication, issued one
    after the other starting from the calls [hist]. *)
Fixpoint search_replies (hist : list request) (meds : list str) : list reply :=
  match meds with
  | [] => []
  | m :: rest =>
      net hist (search_request m) :: search_replies (hist ++ [search_request m]) rest
  end.

(** What one medication may contribute to the drug information, given the
    answer to its search. *)
Definition kept_of (r : reply) (items : list json) : Prop :=
  (List.length items <= 2)%nat /\
  (search_raises r = true -> items = []) /\
  (forall l, results_array r = Some l -> items = firstn 2 l).

(** The record the pipeline continues with. *)
Definition with_default_vitals (p : PatientData) : PatientData :=
  match vitals p with
  | None => set_vitals p (Some placeholder_vitals)
  | Some _ => p
  end.

(** The value at [choices[0].message.content] of a generation reply, when
    the call succeeded and every step of the path exists. *)
Definition reply_content (r : reply) : option json :=
  match r with
  | NoResponse _ => None
  | Response resp =>
      if call_failed r then None
      else match body resp with
           | Some (JDict d) =>
               match dict_get d (lit "choices") with
               | Some (JList (JDict choice :: _)) =>
                   match dict_get choice (lit "message") with
                   | Some (JDict msg) => dict_get msg (lit "content")
                   | _ => None
                   end
               | _ => None
               end
           | _ => None
           end
  end.

(** What the narrator hands back for a generation reply. *)
Definition narrative_of (r : reply) : json :=
  match reply_content r with
  | Some v => v
  | None => JStr fallback_analysis
  end.

(** What the answer to one search adds to the drug information: the first
    two items of a [results] list, the first two characters of a [results]
    string, nothing otherwise. *)
Definition contribution (r : reply) : list json :=
  if search_raises r then []
  else match r with
       | Response resp =>
           match body resp with
           | Some (JDict d) =>
               match dict_get d (lit "results") with
               | Some (JList l) => firstn 2 l
               | Some (JStr s) => map (fun c => JStr [c]) (firstn 2 s)
               | _ => []
               end
           | _ => []
           end
       | NoResponse _ => []
       end.

Definition search_error_line (line : str) : Prop :=
  exists message, line = lit "Error in drug info search: " ++ message.

(** ** Strings: what [in] and [lower] compute *)

Lemma starts_with_spec (t s : str) :
  starts_with t s = true <-> exists post, s = t ++ post.
Proof.
  revert s; induction t as [|a t IH]; intros s; simpl.
  - split; [intros _; now exists s | reflexivity].
  - destruct s as [|b s].
    + split; [discriminate | intros [post H]; discriminate].
    + rewrite andb_true_iff, N.eqb_eq, IH. split.
      * intros [-> [post ->]]. now exists post.
      * intros [post H]. injection H as -> ->. split; [reflexivity | now exists post].
Qed.

Lemma contains_spec (t s : str) : contains t s = true <-> substring t s.
Proof.
  unfold substring. induction s as [|b s IH].
  - simpl. rewrite orb_false_r, starts_with_spec. split.
    + intros [post H]. now exists [], post.
    + intros [pre [post H]]. destruct pre; [now exists post | discriminate].
  - cbn [contains]. rewrite orb_true_iff, starts_with_spec, IH. split.
    + intros [[post H] | [pre [post H]]].
      * now exists [], post.
      * exists (b :: pre), post. simpl. now rewrite H.
    + intros [[|c pre] [post H]].
      * left. now exists post.
      * right. injection H as _ H. now exists pre, post.
Qed.

Lemma lower_from_ascii_prefix (a : str) :
  forallb is_ascii a = true ->
  forall before s,
    lower_from before (a ++ s) = map lower_ascii a ++ lower_from (before ++ a) s.
Proof.
  induction a as [|c a IH]; intros Ha before s; simpl in *.
  - now rewrite app_nil_r.
  - apply andb_true_iff in Ha as [Hc Ha].
    unfold lower_char at 1. rewrite Hc. simpl.
    rewrite IH by assumption. now rewrite <- app_assoc.
Qed.

Lemma existsb_contains_spec (terms : list str) (s : str) :
  existsb (fun term => contains term s) terms = true <->
  exists k, In k terms /\ substring k s.
Proof.
  rewrite existsb_exists. split; intros [k [Hin H]]; exists k; split; trivial;
    now apply contains_spec.
Qed.

Lemma literal_labels_differ : lit "HIGH RISK" <> lit "LOW RISK".
Proof. discriminate. Qed.

(** ** The gathering loop *)

Lemma kept_of_nil (r : reply) :
  (forall l, results_array r = Some l -> firstn 2 l = []) -> kept_of r [].
Proof.
  intros H. repeat split.
  - simpl; lia.
  - intros l Hl. symmetry. now apply H.
Qed.

Lemma kept_of_results (r : reply) (l : list json) :
  results_array r = Some l -> kept_of r (firstn 2 l).
Proof.
  intros H. repeat split.
  - apply firstn_le_length.
  - intros Hf. unfold results_array in H. unfold search_raises in Hf.
    destruct r as [e | resp]; [discriminate|].
    destruct (call_failed (Response resp)); [discriminate|].
    destruct (body resp) as [[ | | | | | | d]|]; try discriminate.
    destruct (dict_get d (lit "results")) as [[ | | | | | | ]|]; discriminate.
  - intros l' Hl'. congruence.
Qed.

Lemma kept_of_chars (r : reply) (s : str) :
  results_array r = None -> search_raises r = false ->
  kept_of r (map (fun c => JStr [c]) (firstn 2 s)).
Proof.
  intros H Hf. repeat split.
  - rewrite length_map. apply firstn_le_length.
  - congruence.
  - congruence.
Qed.

Lemma gather_step_live (m : str) (rest : list str) (acc : list json) (w : world) :
  MOCK_MODE = false ->
  exists items out,
    kept_of (net (calls w) (search_request m)) items /\
    gather_drug_info (m :: rest) acc w =
    gather_drug_info rest (acc ++ items)
      {| calls := calls w ++ [search_request m]; stdout := stdout w ++ out |}.
Proof.
  intros Hlive. cbn [gather_drug_info]. unfold bind at 1.
  unfold search_drug_info. rewrite Hlive.
  unfold try_except, bind, send.
  assert (Hfail : forall line,
    (forall l, results_array (net (calls w) (search_request m)) = Some l -> firstn 2 l = []) ->
    exists items out,
      kept_of (net (calls w) (search_request m)) items /\
      gather_drug_info rest acc
        {| calls := calls w ++ [search_request m]; stdout := stdout w ++ [line] |} =
      gather_drug_info rest (acc ++ items)
        {| calls := calls w ++ [search_request m]; stdout := stdout w ++ out |}).
  { intros line H. exists [], [line]. split; [now apply kept_of_nil|].
    now rewrite app_nil_r. }
  destruct (net (calls w) (search_request m)) as [e | [st bd]] eqn:E.
  - apply Hfail. discriminate.
  - unfold raise_for_status. cbn [status].
    destruct ((200 <=? st) && (st <=? 299)) eqn:Hst.
    + assert (Hok : call_failed (Response {| status := st; body := bd |}) = false).
      { unfold call_failed. cbn [status]. now rewrite Hst. }
      assert (Hsucc : forall items,
        kept_of (Response {| status := st; body := bd |}) items ->
        exists items' out,
          kept_of (Response {| status := st; body := bd |}) items' /\
          gather_drug_info rest (acc ++ items)
            {| calls := calls w ++ [search_request m]; stdout := stdout w |} =
          gather_drug_info rest (acc ++ items')
            {| calls := calls w ++ [search_request m]; stdout := stdout w ++ out |}).
      { intros items H. exists items, []. split; [exact H|]. now rewrite app_nil_r. }
      assert (Hnone :
        kept_of (Response {| status := st; body := bd |}) [] ->
        exists items' out,
          kept_of (Response {| status := st; body := bd |}) items' /\
          gather_drug_info rest acc
            {| calls := calls w ++ [search_request m]; stdout := stdout w |} =
          gather_drug_info rest (acc ++ items')
            {| calls := calls w ++ [search_request m]; stdout := stdout w ++ out |}).
      { intros H. exists [], []. split; [exact H|]. now rewrite !app_nil_r. }
      unfold response_json, ret. cbn [body].
      destruct bd as [data|]; [|apply Hfail; unfold results_array; rewrite Hok; discriminate].
      destruct data as [ | b | z | f | s | l | d ];
        try (apply Hfail; unfold results_array; rewrite Hok; discriminate).
      unfold py_get, ret.
      destruct (dict_get d (lit "results")) as [results|] eqn:Hres.
      * destruct results as [ | b | z | f | s | l | d' ];
          try (apply Hfail; unfold results_array; rewrite Hok; cbn [body]; rewrite Hres;
               discriminate).
        -- cbn -[firstn lit gather_drug_info].
           destruct (firstn 2 s) as [|c s'] eqn:Hs.
           ++ apply Hnone. apply kept_of_nil.
              unfold results_array. rewrite Hok. cbn [body]. rewrite Hres. discriminate.
           ++ rewrite <- Hs. apply Hsucc. apply kept_of_chars.
              ** unfold results_array. rewrite Hok. cbn [body]. now rewrite Hres.
              ** unfold search_raises. rewrite Hok. cbn [body]. now rewrite Hres.
        -- cbn -[firstn lit gather_drug_info].
           assert (Hk : kept_of (Response {| status := st; body := Some (JDict d) |})
                                (firstn 2 l)).
           { apply kept_of_results. unfold results_array. rewrite Hok. cbn [body].
             now rewrite Hres. }
           destruct (firstn 2 l) as [|x l'] eqn:Hl.
           ++ now apply Hnone.
           ++ now apply Hsucc.
      * cbn -[firstn lit gather_drug_info].
        apply Hnone. apply kept_of_nil.
        unfold results_array. rewrite Hok. cbn [body]. rewrite Hres. discriminate.
    + apply Hfail. unfold results_array, call_failed. cbn [status]. rewrite Hst.
      discriminate.
Qed.

Lemma gather_live (meds : list str) :
  MOCK_MODE = false ->
  forall acc w,
  exists per out,
    Forall2 kept_of (search_replies (calls w) meds) per /\
    gather_drug_info meds acc w =
    (Val (acc ++ List.concat per),
     {| calls := calls w ++ map search_request meds; stdout := stdout w ++ out |}).
Proof.
  intros Hlive. induction meds as [|m rest IH]; intros acc w.
  - exists [], []. split; [constructor|]. simpl. rewrite !app_nil_r.
    now destruct w.
  - destruct (gather_step_live m rest acc w Hlive) as (items & out & Hk & Hstep).
    rewrite Hstep.
    destruct (IH (acc ++ items)
                 {| calls := calls w ++ [search_request m]; stdout := stdout w ++ out |})
      as (per & out' & Hper & Hrest).
    exists (items :: per), (out ++ out'). split.
    + cbn [search_replies]. constructor; assumption.
    + rewrite Hrest. cbn [calls stdout List.concat map]. now rewrite <- !app_assoc.
Qed.

Lemma search_drug_info_mock (m : str) (w : world) :
  MOCK_MODE = true -> search_drug_info m w = (Val (JList [mock_result m]), w).
Proof. intros Hmock. unfold search_drug_info. now rewrite Hmock. Qed.

Lemma gather_mock (meds : list str) :
  MOCK_MODE = true ->
  forall acc w,
    gather_drug_info meds acc w = (Val (acc ++ map mock_result meds), w).
Proof.
  intros Hmock. induction meds as [|m rest IH]; intros acc w.
  - simpl. now rewrite app_nil_r.
  - cbn [gather_drug_info]. unfold bind at 1.
    rewrite search_drug_info_mock by assumption.
    cbn -[mock_result]. rewrite IH. now rewrite <- app_assoc.
Qed.

(** The loop never raises, whatever the mode and the answers. *)
Lemma gather_total (meds : list str) (acc : list json) (w : world) :
  exists drug_info w', gather_drug_info meds acc w = (Val drug_info, w').
Proof.
  destruct MOCK_MODE eqn:Hmode.
  - eexists _, _. now apply gather_mock.
  - destruct (gather_live meds Hmode acc w) as (per & out & _ & H). eauto.
Qed.

(** ** The narrator *)

Lemma mock_risk_analysis_flags (p : PatientData) (w : world) :
  mock_risk_analysis p w = (Val (flag_narrative p), w).
Proof.
  unfold mock_risk_analysis, flag_narrative, fired_flags, flag_fires.
  cbn [filter]. rewrite !Z.gtb_ltb.
  replace (2 <? Z.of_nat (List.length (medications p)))
    with (2 <? List.length (medications p))%nat.
  2:{ destruct (2 <? List.length (medications p))%nat eqn:H; symmetry.
      - apply Nat.ltb_lt in H. apply Z.ltb_lt. lia.
      - apply Nat.ltb_ge in H. apply Z.ltb_ge. lia. }
  destruct (65 <? age p), (2 <? List.length (medications p))%nat,
    (allergies p) as [|a rest] eqn:Ha;
    cbn [List.length Nat.eqb negb map flag_text]; rewrite ?Ha; reflexivity.
Qed.

Lemma analyze_mock (p : PatientData) (drug_info : list json) (w : world) :
  MOCK_MODE = true ->
  analyze_risks_with_groq p drug_info w = (Val (JStr (flag_narrative p)), w).
Proof.
  intros Hmock. unfold analyze_risks_with_groq. rewrite Hmock.
  unfold bind. now rewrite mock_risk_analysis_flags.
Qed.

Lemma analyze_live (p : PatientData) (drug_info : list json) (w : world) :
  MOCK_MODE = false ->
  exists v w',
    analyze_risks_with_groq p drug_info w = (Val v, w') /\
    calls w' = calls w ++ [generation_request p drug_info] /\
    (call_failed (net (calls w) (generation_request p drug_info)) = true ->
     v = JStr fallback_analysis).
Proof.
  intros Hlive. unfold analyze_risks_with_groq. rewrite Hlive.
  unfold try_except, bind, send, call_failed.
  destruct (net (calls w) (generation_request p drug_info)) as [e | [st bd]].
  - eexists _, _. repeat split.
  - unfold raise_for_status, response_json. cbn [status body].
    destruct ((200 <=? st) && (st <=? 299)); cbn -[lit fallback_analysis].
    2:{ eexists _, _. repeat split. }
    unfold py_getitem_key, py_getitem_0, ret, raise.
    repeat (match goal with
            | |- context [match ?x with _ => _ end] =>
                lazymatch type of x with
                | prod _ _ => fail
                | _ => destruct x
                end
            end; cbn -[lit fallback_analysis]);
      eexists _, _; repeat split; discriminate.
Qed.

Lemma analyze_total (p : PatientData) (drug_info : list json) (w : world) :
  exists v w', analyze_risks_with_groq p drug_info w = (Val v, w').
Proof.
  destruct MOCK_MODE eqn:Hmode.
  - eexists _, _. now apply analyze_mock.
  - destruct (analyze_live p drug_info w Hmode) as (v & w' & H & _). eauto.
Qed.

(** ** The endpoint *)

Lemma medications_with_default_vitals (p : PatientData) :
  medications (with_default_vitals p) = medications p.
Proof. unfold with_default_vitals. now destruct (vitals p). Qed.

Lemma patient_id_with_default_vitals (p : PatientData) :
  patient_id (with_default_vitals p) = patient_id p.
Proof. unfold with_default_vitals. now destruct (vitals p). Qed.

(** The endpoint, once the loop and the narrator have run: a narrative
    that is a string gives the response, anything else the server error. *)
Lemma process_after_narrator (p : PatientData) (w w1 w2 : world)
      (drug_info : list json) (v : json) :
  gather_drug_info (medications p) [] w = (Val drug_info, w1) ->
  analyze_risks_with_groq (with_default_vitals p) drug_info w1 = (Val v, w2) ->
  process_patient_data p w =
  match v with
  | JStr analysis => (Val (assemble p analysis (now_isoformat w2)), w2)
  | _ => (Raise (HTTPException 500 (str_of_exn (AttributeError v (lit "lower")))), w2)
  end.
Proof.
  intros Hg Ha. unfold process_patient_data, try_except.
  fold (with_default_vitals p).
  rewrite medications_with_default_vitals, patient_id_with_default_vitals.
  unfold bind at 1. rewrite Hg. unfold bind at 1. rewrite Ha.
  destruct v; reflexivity.
Qed.

Lemma call_failed_raises (r : reply) : call_failed r = true -> search_raises r = true.
Proof.
  intros H. unfold search_raises. destruct r; [reflexivity|]. now rewrite H.
Qed.

(** A search that raises is answered with the empty list and one printed
    line. *)
Lemma search_drug_info_failed (m : str) (w : world) :
  MOCK_MODE = false ->
  search_raises (net (calls w) (search_request m)) = true ->
  exists line,
    search_drug_info m w =
    (Val (JList []),
     {| calls := calls w ++ [search_request m]; stdout := stdout w ++ [line] |}).
Proof.
  intros Hlive Hfail. unfold search_drug_info. rewrite Hlive.
  unfold try_except, bind, send. unfold search_raises, call_failed in Hfail.
  destruct (net (calls w) (search_request m)) as [e | [st bd]].
  - eexists. reflexivity.
  - unfold raise_for_status, response_json. cbn [status body] in *.
    destruct ((200 <=? st) && (st <=? 299)); cbn [negb] in Hfail.
    2:{ eexists. reflexivity. }
    destruct bd as [[ | b | z | f | s | l | d]|]; try discriminate;
      try (eexists; reflexivity).
    unfold py_get, ret.
    destruct (dict_get d (lit "results")) as [[ | b | z | f | s | l | d']|];
      try discriminate; eexists; reflexivity.
Qed.

(** One live request: the searches, then the generation call, then the
    response or the server error. *)
Lemma process_live (p : PatientData) (w : world) :
  MOCK_MODE = false ->
  exists per out v w2,
    let drug_info := List.concat per in
    let w1 := {| calls := calls w ++ map search_request (medications p);
                 stdout := stdout w ++ out |} in
    Forall2 kept_of (search_replies (calls w) (medications p)) per /\
    gather_drug_info (medications p) [] w = (Val drug_info, w1) /\
    analyze_risks_with_groq (with_default_vitals p) drug_info w1 = (Val v, w2) /\
    calls w2 = calls w ++ map search_request (medications p)
               ++ [generation_request (with_default_vitals p) drug_info] /\
    process_patient_data p w =
    match v with
    | JStr analysis => (Val (assemble p analysis (now_isoformat w2)), w2)
    | _ => (Raise (HTTPException 500 (str_of_exn (AttributeError v (lit "lower")))), w2)
    end.
Proof.
  intros Hlive.
  destruct (gather_live (medications p) Hlive [] w) as (per & out & Hper & Hg).
  cbn [app] in Hg.
  destruct (analyze_live (with_default_vitals p) (List.concat per)
              {| calls := calls w ++ map search_request (medications p);
                 stdout := stdout w ++ out |} Hlive)
    as (v & w2 & Ha & Hcalls & _).
  exists per, out, v, w2. cbn zeta. repeat split; try assumption.
  - rewrite Hcalls. cbn [calls]. now rewrite <- app_assoc.
  - now apply process_after_narrator with (w1 := {| calls := calls w ++ map search_request (medications p); stdout := stdout w ++ out |}) (drug_info := List.concat per).
Qed.

(** One offline request. *)
Lemma process_mock (p : PatientData) (w : world) :
  MOCK_MODE = true ->
  process_patient_data p w = (Val (assemble p (flag_narrative p) (now_isoformat w)), w).
Proof.
  intros Hmock.
  rewrite (@process_after_narrator p w w w (map mock_result (medications p))
             (JStr (flag_narrative (with_default_vitals p)))).
  - unfold flag_narrative, fired_flags, flag_fires, flag_text, with_default_vitals.
    now destruct (vitals p).
  - now apply gather_mock.
  - now apply analyze_mock.
Qed.

(** ** The classifier on the narratives of this service *)

Lemma get_risk_level_high (s : str) :
  (exists k, In k high_risk_terms /\ substring k (lower s)) ->
  get_risk_level s = lit "HIGH RISK".
Proof.
  intros H. unfold get_risk_level.
  now rewrite (proj2 (existsb_contains_spec high_risk_terms (lower s)) H).
Qed.

Lemma get_risk_level_low (s : str) :
  (forall k, In k high_risk_terms -> ~ substring k (lower s)) ->
  get_risk_level s = lit "LOW RISK".
Proof.
  intros H. unfold get_risk_level.
  destruct (existsb _ high_risk_terms) eqn:E; [|reflexivity].
  apply existsb_contains_spec in E as [k [Hin Hk]]. now destruct (H k Hin).
Qed.

Lemma get_risk_level_high_prefix (rest : str) :
  get_risk_level (lit "HIGH RISK: " ++ rest) = lit "HIGH RISK".
Proof.
  apply get_risk_level_high. exists (lit "high risk"). split; [now left|].
  unfold lower. rewrite (lower_from_ascii_prefix (lit "HIGH RISK: ")) by reflexivity.
  exists [], (lit ": " ++ lower_from ([] ++ lit "HIGH RISK: ") rest). reflexivity.
Qed.

Lemma get_risk_level_low_sentence : get_risk_level low_risk_sentence = lit "LOW RISK".
Proof. reflexivity. Qed.

Lemma get_risk_level_fallback : get_risk_level fallback_analysis = lit "LOW RISK".
Proof. reflexivity. Qed.

(** ** The loop and the narrator, exactly *)

Lemma gather_step_exact (m : str) (rest : list str) (acc : list json) (w : world) :
  MOCK_MODE = false ->
  let r := net (calls w) (search_request m) in
  exists log,
    List.length log = (if search_raises r then 1 else 0)%nat /\
    Forall search_error_line log /\
    gather_drug_info (m :: rest) acc w =
    gather_drug_info rest (acc ++ contribution r)
      {| calls := calls w ++ [search_request m]; stdout := stdout w ++ log |}.
Proof.
  intros Hlive r. subst r. cbn [gather_drug_info]. unfold bind at 1.
  unfold search_drug_info. rewrite Hlive.
  unfold try_except, bind, send, contribution, search_raises, call_failed.
  assert (Hquiet :
    exists log,
      List.length log = 0%nat /\ Forall search_error_line log /\
      gather_drug_info rest acc
        {| calls := calls w ++ [search_request m]; stdout := stdout w |} =
      gather_drug_info rest (acc ++ [])
        {| calls := calls w ++ [search_request m]; stdout := stdout w ++ log |}).
  { exists []. repeat split; [constructor|]. now rewrite !app_nil_r. }
  assert (Hitems : forall items,
    exists log,
      List.length log = 0%nat /\ Forall search_error_line log /\
      gather_drug_info rest (acc ++ items)
        {| calls := calls w ++ [search_request m]; stdout := stdout w |} =
      gather_drug_info rest (acc ++ items)
        {| calls := calls w ++ [search_request m]; stdout := stdout w ++ log |}).
  { intros items. exists []. repeat split; [constructor|]. now rewrite !app_nil_r. }
  assert (Hloud : forall e,
    exists log,
      List.length log = 1%nat /\ Forall search_error_line log /\
      gather_drug_info rest acc
        {| calls := calls w ++ [search_request m];
           stdout := stdout w ++ [lit "Error in drug info search: " ++ str_of_exn e] |} =
      gather_drug_info rest (acc ++ [])
        {| calls := calls w ++ [search_request m]; stdout := stdout w ++ log |}).
  { intros e. exists [lit "Error in drug info search: " ++ str_of_exn e].
    repeat split.
    - constructor; [|constructor]. now exists (str_of_exn e).
    - now rewrite app_nil_r. }
  destruct (net (calls w) (search_request m)) as [e | [st bd]].
  - apply Hloud.
  - unfold raise_for_status, response_json, ret. cbn [status body].
    destruct ((200 <=? st) && (st <=? 299)); cbn [negb]; [|apply Hloud].
    destruct bd as [[ | b | z | f | s | l | d]|]; try apply Hloud.
    unfold py_get, ret.
    destruct (dict_get d (lit "results")) as [[ | b | z | f | s | l | d']|];
      try apply Hloud; cbn -[firstn lit gather_drug_info].
    + destruct (firstn 2 s) as [|c s']; [apply Hquiet | apply Hitems].
    + destruct (firstn 2 l) as [|x l']; [apply Hquiet | apply Hitems].
    + apply Hquiet.
Qed.

Lemma gather_live_exact (meds : list str) :
  MOCK_MODE = false ->
  forall acc w,
  exists log,
    List.length log = List.length (filter search_raises (search_replies (calls w) meds)) /\
    Forall search_error_line log /\
    gather_drug_info meds acc w =
    (Val (acc ++ flat_map contribution (search_replies (calls w) meds)),
     {| calls := calls w ++ map search_request meds; stdout := stdout w ++ log |}).
Proof.
  intros Hlive. induction meds as [|m rest IH]; intros acc w.
  - exists []. repeat split; [constructor|]. simpl. rewrite !app_nil_r. now destruct w.
  - destruct (gather_step_exact m rest acc w Hlive) as (log1 & Hlen1 & Hall1 & Hstep).
    rewrite Hstep.
    destruct (IH (acc ++ contribution (net (calls w) (search_request m)))
                 {| calls := calls w ++ [search_request m]; stdout := stdout w ++ log1 |})
      as (log2 & Hlen2 & Hall2 & Hrest).
    exists (log1 ++ log2). repeat split.
    + rewrite length_app, Hlen1, Hlen2. cbn [search_replies filter calls].
      now destruct (search_raises (net (calls w) (search_request m))).
    + now apply Forall_app.
    + rewrite Hrest. cbn [calls stdout search_replies flat_map map].
      now rewrite <- !app_assoc.
Qed.

Lemma analyze_live_exact (p : PatientData) (drug_info : list json) (w : world) :
  MOCK_MODE = false ->
  let r := net (calls w) (generation_request p drug_info) in
  exists w',
    analyze_risks_with_groq p drug_info w = (Val (narrative_of r), w') /\
    calls w' = calls w ++ [generation_request p drug_info] /\
    match reply_content r with
    | Some _ => stdout w' = stdout w
    | None => exists line, stdout w' = stdout w ++ [line]
    end.
Proof.
  intros Hlive r. subst r. unfold analyze_risks_with_groq. rewrite Hlive.
  unfold try_except, bind, send, narrative_of, reply_content, call_failed.
  destruct (net (calls w) (generation_request p drug_info)) as [e | [st bd]].
  - eexists. repeat split. eexists. reflexivity.
  - unfold raise_for_status, response_json. cbn [status body].
    destruct ((200 <=? st) && (st <=? 299)); cbn -[lit fallback_analysis].
    2:{ eexists. repeat split. eexists. reflexivity. }
    unfold py_getitem_key, py_getitem_0, ret, raise.
    repeat (match goal with
            | |- context [match ?x with _ => _ end] =>
                lazymatch type of x with
                | prod _ _ => fail
                | _ => destruct x
                end
            end; cbn -[lit fallback_analysis]);
      eexists; repeat split; eexists; reflexivity.
Qed.


Lemma process_live_exact (p : PatientData) (w : world) :
  MOCK_MODE = false ->
  exists log w2,
    let drug_info := flat_map contribution (search_replies (calls w) (medications p)) in
    let w1 := {| calls := calls w ++ map search_request (medications p);
                 stdout := stdout w ++ log |} in
    let r := net (calls w1) (generation_request (with_default_vitals p) drug_info) in
    gather_drug_info (medications p) [] w = (Val drug_info, w1) /\
    List.length log =
      List.length (filter search_raises (search_replies (calls w) (medications p))) /\
    Forall search_error_line log /\
    calls w2 = calls w1 ++ [generation_request (with_default_vitals p) drug_info] /\
    process_patient_data p w =
    match narrative_of r with
    | JStr analysis => (Val (assemble p analysis (now_isoformat w2)), w2)
    | v => (Raise (HTTPException 500 (str_of_exn (AttributeError v (lit "lower")))), w2)
    end.
Proof.
  intros Hlive.
  destruct (gather_live_exact (medications p) Hlive [] w) as (log & Hlen & Hall & Hg).
  cbn [app] in Hg.
  destruct (analyze_live_exact (with_default_vitals p)
              (flat_map contribution (search_replies (calls w) (medications p)))
              {| calls := calls w ++ map search_request (medications p);
                 stdout := stdout w ++ log |} Hlive)
    as (w2 & Ha & Hcalls & _).
  exists log, w2. cbn zeta. repeat split; try assumption.
  rewrite (@process_after_narrator p w _ w2 _ _ Hg Ha).
  now destruct (narrative_of _).
Qed.

(** The generation call is a POST to the generation URL whose payload holds
    one user message, the prompt. *)
Lemma generation_request_shape (p : PatientData) (drug_info : list json) :
  exists headers payload timeout msg,
    generation_request p drug_info = POST groq_url headers payload timeout /\
    messages payload = [msg] /\
    role msg = lit "user" /\
    content msg = build_prompt p drug_info.
Proof. eexists _, _, _, _. repeat split. Qed.

(** ** The claims *)

(** C1.  The risk classifier: a text whose lower-cased form contains one of
    the five keywords is labelled "HIGH RISK", a text whose lower-cased
    form contains none of them is labelled "LOW RISK"; and the label of a
    response is the classifier applied to its narrative text, so it
    depends on that text alone. *)
Theorem get_risk_level_keywords (s : str) :
  high_risk_terms =
    [lit "high risk"; lit "severe"; lit "dangerous"; lit "critical"; lit "emergency"] /\
  ((exists k, In k high_risk_terms /\ substring k (lower s)) ->
   get_risk_level s = lit "HIGH RISK") /\
  ((forall k, In k high_risk_terms -> ~ substring k (lower s)) ->
   get_risk_level s = lit "LOW RISK") /\
  (forall p w resp w',
      process_patient_data p w = (Val resp, w') ->
      risk_level resp = get_risk_level (risk_analysis resp)).
Proof.
  split; [reflexivity|].
  split; [apply get_risk_level_high|].
  split; [apply get_risk_level_low|].
  intros p w resp w' H.
  destruct (gather_total (medications p) [] w) as (di & w1 & Hg).
  destruct (analyze_total (with_default_vitals p) di w1) as (v & w2 & Ha).
  rewrite (@process_after_narrator p w w1 w2 di v Hg Ha) in H.
  destruct v; try discriminate. injection H as <- _. reflexivity.
Qed.

(** C2.  The offline narrative is rule-based: the flags elderly (age above
    65), multiple medications (more than two) and known allergies (a
    non-empty list) are collected in that order; when one fired the
    narrative is "HIGH RISK: " followed by the fired flags joined with
    "; ", otherwise it is the fixed LOW RISK sentence.  A patient aged 70
    with three medications and one allergy gets all three flags in order,
    a patient aged 30 with one medication and no allergy gets exactly the
    LOW RISK sentence. *)
Theorem mock_narrative_rule_based :
  (forall p w,
      mock_risk_analysis p w =
      (Val (match fired_flags p with
            | [] => lit "LOW RISK: No significant risk factors identified"
            | _ :: _ =>
                lit "HIGH RISK: " ++ join (lit "; ") (map (flag_text p) (fired_flags p))
            end), w)) /\
  (forall id m1 m2 m3 allergy v w,
      mock_risk_analysis
        {| patient_id := id; age := 70; medications := [m1; m2; m3];
           allergies := [allergy]; vitals := v |} w =
      (Val (lit "HIGH RISK: Elderly patient - increased risk; Multiple medications - potential interactions; Known allergies: "
            ++ allergy), w)) /\
  (forall id m v w,
      mock_risk_analysis
        {| patient_id := id; age := 30; medications := [m];
           allergies := []; vitals := v |} w =
      (Val (lit "LOW RISK: No significant risk factors identified"), w)).
Proof.
  split; [|split].
  - intros p w. apply mock_risk_analysis_flags.
  - intros. reflexivity.
  - intros. reflexivity.
Qed.

(** C4.  Offline mode: when a credential is unset or empty the process is
    in mock mode, and then every request is served without an outbound
    call: the search step returns the fabricated result, the analysis step
    the rule-based narrative, the world is left as it was, and the
    response carries the mode "MOCK". *)
Theorem mock_mode_no_network_call :
  missing GROQ_API_KEY = true \/ missing TAVILY_API_KEY = true ->
  MOCK_MODE = true /\
  (forall drug_name w, search_drug_info drug_name w = mock_drug_info drug_name w) /\
  (forall drug_name w, search_drug_info drug_name w = (Val (JList [mock_result drug_name]), w)) /\
  (forall p drug_info w,
      exists text,
        mock_risk_analysis p w = (Val text, w) /\
        analyze_risks_with_groq p drug_info w = (Val (JStr text), w)) /\
  (forall p w,
      exists resp,
        process_patient_data p w = (Val resp, w) /\ mode resp = lit "MOCK").
Proof.
  intros Hkeys.
  assert (Hmock : MOCK_MODE = true).
  { unfold MOCK_MODE. destruct Hkeys as [-> | ->]; [reflexivity | apply orb_true_r]. }
  split; [exact Hmock|]. split; [|split; [|split]].
  - intros m w. unfold search_drug_info. now rewrite Hmock.
  - intros m w. now apply search_drug_info_mock.
  - intros p di w. exists (flag_narrative p). split.
    + apply mock_risk_analysis_flags.
    + now apply analyze_mock.
  - intros p w. eexists. split; [now apply process_mock|].
    cbn [mode assemble]. now rewrite Hmock.
Qed.

(** C5.  In mock mode the label of the response is "HIGH RISK" exactly
    when a rule fires (age above 65, more than two medications, or a
    non-empty allergy list) and "LOW RISK" otherwise: the classifier
    agrees with the flags on every offline narrative. *)
Theorem mock_risk_level_agrees_with_flags (p : PatientData) (w : world) :
  MOCK_MODE = true ->
  exists resp,
    process_patient_data p w = (Val resp, w) /\
    (age p > 65 \/ (List.length (medications p) > 2)%nat \/ allergies p <> [] ->
     risk_level resp = lit "HIGH RISK") /\
    (~ (age p > 65 \/ (List.length (medications p) > 2)%nat \/ allergies p <> []) ->
     risk_level resp = lit "LOW RISK").
Proof.
  intros Hmock. eexists. split; [now apply process_mock|].
  cbn [risk_level assemble]. unfold flag_narrative, fired_flags, flag_fires.
  cbn [filter].
  destruct (65 <? age p) eqn:Hage;
    [|destruct (2 <? List.length (medications p))%nat eqn:Hmeds;
      [|destruct (allergies p) as [|a rest] eqn:Hall]];
    cbn [List.length Nat.eqb negb].
  1-2,4: split; [intros _; apply get_risk_level_high_prefix|].
  - intros H. exfalso. apply H. left. apply Z.ltb_lt in Hage. lia.
  - intros H. exfalso. apply H. right. left. apply Nat.ltb_lt in Hmeds. lia.
  - intros H. exfalso. apply H. right. right. discriminate.
  - apply Z.ltb_ge in Hage. apply Nat.ltb_ge in Hmeds. split.
    + intros [H | [H | H]]; [lia | lia | now destruct H].
    + intros _. apply get_risk_level_low_sentence.
Qed.

(** C3.  A failure of the search call for one medication (the client
    raised, e.g. on a time-out, the status is not 2xx, or reading the body
    raised) yields the empty list for that medication only and aborts
    neither the loop nor the request.  Whatever the searches answer, the
    loop runs to its end, the sequence handed to the narrator holds, in
    input order, what each medication's answer contributes, and the
    endpoint returns a success response; the searches are unconstrained,
    the generation service is only taken to keep to the narrator's
    [-> str]: a content it delivers is a string. *)
Theorem search_failure_isolated (p : PatientData) (w : world) :
  ((forall hist url headers payload timeout v,
       reply_content (net hist (POST url headers payload timeout)) = Some v ->
       exists text, v = JStr text) ->
   exists resp w2, process_patient_data p w = (Val resp, w2)) /\
  (MOCK_MODE = false ->
   (forall r, call_failed r = true -> search_raises r = true) /\
   (forall m w0,
       search_raises (net (calls w0) (search_request m)) = true ->
       exists w0', search_drug_info m w0 = (Val (JList []), w0')) /\
   exists per w1 headers payload timeout msg,
     Forall2 kept_of (search_replies (calls w) (medications p)) per /\
     gather_drug_info (medications p) [] w = (Val (List.concat per), w1) /\
     calls (snd (process_patient_data p w)) =
     calls w ++ map search_request (medications p)
       ++ [POST groq_url headers payload timeout] /\
     messages payload = [msg] /\
     prompt_drug_info (content msg) = List.concat per).
Proof.
  split.
  - intros Hcontract. destruct MOCK_MODE eqn:Hmode.
    + eexists _, _. now apply process_mock.
    + destruct (process_live_exact p w Hmode) as (log & w2 & H). cbn zeta in H.
      destruct H as (_ & _ & _ & _ & Hp).
      destruct (generation_request_shape (with_default_vitals p)
                  (flat_map contribution (search_replies (calls w) (medications p))))
        as (headers & payload & timeout & msg & Hshape & _).
      rewrite Hshape in Hp. unfold narrative_of in Hp.
      destruct (reply_content _) as [v|] eqn:Hv.
      * destruct (Hcontract _ _ _ _ _ _ Hv) as [text ->]. eauto.
      * eauto.
  - intros Hlive. split; [exact call_failed_raises|]. split.
    + intros m w0 Hfail.
      destruct (search_drug_info_failed m w0 Hlive Hfail) as [line H]. eauto.
    + destruct (process_live p w Hlive) as (per & out & v & w2 & H).
      cbn zeta in H. destruct H as (Hper & Hg & Ha & Hcalls & Hp).
      destruct (generation_request_shape (with_default_vitals p) (List.concat per))
        as (headers & payload & timeout & msg & Hshape & Hmsgs & _ & Hcontent).
      exists per, {| calls := calls w ++ map search_request (medications p);
                     stdout := stdout w ++ out |}, headers, payload, timeout, msg.
      split; [exact Hper|]. split; [exact Hg|]. split; [|split; [exact Hmsgs|]].
      * rewrite Hp, <- Hshape, <- Hcalls. now destruct v.
      * now rewrite Hcontent.
Qed.


(** C7.  In live mode each medication contributes at most two items, the
    first two results of its search response; the drug information is the
    concatenation of these contributions in the order of the medications
    list, the searches are issued one after the other in that order, and
    the generation call that follows them carries that sequence. *)
Theorem live_drug_info_first_two_in_order (p : PatientData) (w : world) :
  MOCK_MODE = false ->
  exists per,
    Forall2
      (fun r items =>
         (List.length items <= 2)%nat /\
         (forall l, results_array r = Some l -> items = firstn 2 l))
      (search_replies (calls w) (medications p)) per /\
    (exists out,
        gather_drug_info (medications p) [] w =
        (Val (List.concat per),
         {| calls := calls w ++ map search_request (medications p);
            stdout := stdout w ++ out |})) /\
    calls (snd (process_patient_data p w)) =
    calls w ++ map search_request (medications p)
      ++ [generation_request (with_default_vitals p) (List.concat per)] /\
    prompt_drug_info (build_prompt (with_default_vitals p) (List.concat per)) =
    List.concat per.
Proof.
  intros Hlive.
  destruct (process_live p w Hlive) as (per & out & v & w2 & H).
  cbn zeta in H. destruct H as (Hper & Hg & Ha & Hcalls & Hp).
  exists per. split; [|split; [|split]].
  - eapply Forall2_impl; [|exact Hper].
    intros r items (Hlen & _ & Hres). now split.
  - now exists out.
  - rewrite Hp. now destruct v.
  - reflexivity.
Qed.

(** C8.  Offline, the first patient of the test script (MH-001, aged 25,
    one medication, no allergy, vitals given) gets the label "LOW RISK",
    one analysed medication and the mode "MOCK". *)
Theorem end_to_end_offline_example (w : world) :
  MOCK_MODE = true ->
  exists resp,
    process_patient_data patient_MH001 w = (Val resp, w) /\
    resp_patient_id resp = lit "MH-001" /\
    risk_level resp = lit "LOW RISK" /\
    risk_analysis resp = lit "LOW RISK: No significant risk factors identified" /\
    analyzed_medications resp = 1 /\
    mode resp = lit "MOCK".
Proof.
  intros Hmock. eexists. split; [now apply process_mock|].
  cbn [resp_patient_id risk_level risk_analysis analyzed_medications mode assemble].
  rewrite Hmock. repeat split.
Qed.


(** C10.  The [analyzed_medications] field of a response is the length of
    the submitted medications list, whatever the searches returned; and a
    response is produced in mock mode always, in live mode whenever the
    narrator hands back a text. *)
Theorem analyzed_medications_is_input_length (p : PatientData) (w : world) :
  (forall resp w',
      process_patient_data p w = (Val resp, w') ->
      analyzed_medications resp = Z.of_nat (List.length (medications p))) /\
  (MOCK_MODE = true ->
   exists resp,
     process_patient_data p w = (Val resp, w) /\
     analyzed_medications resp = Z.of_nat (List.length (medications p))) /\
  (exists drug_info w1 v w2,
      gather_drug_info (medications p) [] w = (Val drug_info, w1) /\
      analyze_risks_with_groq (with_default_vitals p) drug_info w1 = (Val v, w2) /\
      forall analysis,
        v = JStr analysis ->
        exists resp,
          process_patient_data p w = (Val resp, w2) /\
          analyzed_medications resp = Z.of_nat (List.length (medications p))).
Proof.
  destruct (gather_total (medications p) [] w) as (di & w1 & Hg).
  destruct (analyze_total (with_default_vitals p) di w1) as (v & w2 & Ha).
  pose proof (@process_after_narrator p w w1 w2 di v Hg Ha) as Hp.
  split; [|split].
  - intros resp w' H. rewrite Hp in H.
    destruct v; try discriminate. injection H as <- _. reflexivity.
  - intros Hmock. eexists. split; [now apply process_mock|]. reflexivity.
  - exists di, w1, v, w2. repeat split; try assumption.
    intros analysis ->. eexists. split; [exact Hp | reflexivity].
Qed.

(** ** Beyond the claims *)

Lemma lower_from_app (pre : str) :
  forall before s,
  exists lowered, lower_from before (pre ++ s) = lowered ++ lower_from (before ++ pre) s.
Proof.
  induction pre as [|c pre IH]; intros before s.
  - exists []. cbn [app]. now rewrite app_nil_r.
  - cbn [app lower_from].
    destruct (IH (before ++ [c]) s) as [lowered H].
    exists (lower_char before c (pre ++ s) ++ lowered).
    rewrite H, <- !app_assoc. reflexivity.
Qed.

Lemma join_cons2 (sep a b : str) (rest : list str) :
  join sep (a :: b :: rest) = a ++ sep ++ join sep (b :: rest).
Proof. reflexivity. Qed.

Lemma substring_join (sep a : str) (parts : list str) :
  In a parts -> substring a (join sep parts).
Proof.
  induction parts as [|b rest IH]; [contradiction|].
  intros [-> | Hin].
  - destruct rest as [|c rest].
    + exists [], []. cbn [join app]. now rewrite app_nil_r.
    + rewrite join_cons2. now exists [], (sep ++ join sep (c :: rest)).
  - destruct rest as [|c rest]; [contradiction|].
    destruct (IH Hin) as (pre & post & H).
    rewrite join_cons2, H. exists (b ++ sep ++ pre), post.
    now rewrite <- !app_assoc.
Qed.

(** X1.  The narrator in live mode makes exactly one call; when the reply
    is a 2xx response whose body holds a value at choices[0].message.content
    it returns that value as it is and prints nothing; in every other case
    (the client raised, another status, a body that is not JSON, a missing
    step of the path) it prints one line and returns the fallback
    sentence. *)
Theorem narrator_returns_reply_content (p : PatientData) (drug_info : list json)
        (w : world) :
  MOCK_MODE = false ->
  exists w',
    calls w' = calls w ++ [generation_request p drug_info] /\
    (forall v,
        reply_content (net (calls w) (generation_request p drug_info)) = Some v ->
        analyze_risks_with_groq p drug_info w = (Val v, w') /\ stdout w' = stdout w) /\
    (reply_content (net (calls w) (generation_request p drug_info)) = None ->
     analyze_risks_with_groq p drug_info w =
       (Val (JStr (lit "Unable to perform risk analysis")), w') /\
     exists line, stdout w' = stdout w ++ [line]).
Proof.
  intros Hlive.
  destruct (analyze_live_exact p drug_info w Hlive) as (w' & Ha & Hcalls & Hout).
  cbn zeta in Ha. unfold narrative_of in Ha.
  exists w'. split; [exact Hcalls|]. split.
  - intros v Hv. rewrite Hv in Ha, Hout. now split.
  - intros Hnone. rewrite Hnone in Ha, Hout. now split.
Qed.

(** X2.  A degraded response is always labelled "LOW RISK": in live mode,
    when the generation reply yields no content, the endpoint succeeds with
    the fallback sentence as narrative and "LOW RISK" as label, whatever the
    age, medications and allergies of the patient. *)
Theorem degraded_response_is_low_risk (p : PatientData) (w w1 : world)
        (drug_info : list json) :
  MOCK_MODE = false ->
  gather_drug_info (medications p) [] w = (Val drug_info, w1) ->
  reply_content
    (net (calls w1) (generation_request (with_default_vitals p) drug_info)) = None ->
  exists resp w2,
    process_patient_data p w = (Val resp, w2) /\
    risk_analysis resp = lit "Unable to perform risk analysis" /\
    risk_level resp = lit "LOW RISK".
Proof.
  intros Hlive Hg Hnone.
  destruct (analyze_live_exact (with_default_vitals p) drug_info w1 Hlive)
    as (w2 & Ha & _ & _).
  cbn zeta in Ha. unfold narrative_of in Ha. rewrite Hnone in Ha.
  eexists _, w2. split; [exact (@process_after_narrator p w w1 w2 _ _ Hg Ha)|].
  split; [reflexivity|]. apply get_risk_level_fallback.
Qed.

(** X3.  The only error the endpoint raises is HTTPException(500), and it
    raises it exactly when, in live mode, the generation reply carries a
    content that is not a string: the detail is the message of the
    AttributeError of calling [lower] on that value. *)
Theorem endpoint_error_only_from_non_text_narrative (p : PatientData) (w : world) :
  exists drug_info w1,
    gather_drug_info (medications p) [] w = (Val drug_info, w1) /\
    let r := net (calls w1) (generation_request (with_default_vitals p) drug_info) in
    (forall e w',
        process_patient_data p w = (Raise e, w') ->
        MOCK_MODE = false /\
        exists v,
          reply_content r = Some v /\ (forall s, v <> JStr s) /\
          e = HTTPException 500 (str_of_exn (AttributeError v (lit "lower")))) /\
    (forall v,
        MOCK_MODE = false -> reply_content r = Some v -> (forall s, v <> JStr s) ->
        fst (process_patient_data p w) =
        Raise (HTTPException 500 (str_of_exn (AttributeError v (lit "lower"))))).
Proof.
  destruct MOCK_MODE eqn:Hmode.
  - exists (map mock_result (medications p)), w. split; [now apply gather_mock|].
    cbn zeta. split.
    + intros e w' H. rewrite process_mock in H by assumption. discriminate.
    + discriminate.
  - destruct (process_live_exact p w Hmode) as (log & w2 & H). cbn zeta in H.
    destruct H as (Hg & _ & _ & _ & Hp).
    eexists _, _. split; [exact Hg|]. cbn zeta.
    unfold narrative_of in Hp. split.
    + intros e w' H. split; [reflexivity|]. rewrite Hp in H.
      destruct (reply_content _) as [v|]; [|discriminate].
      exists v. split; [reflexivity|].
      destruct v; try discriminate; injection H as <- _; split; try reflexivity;
        intros s; discriminate.
    + intros v _ Hv Hns. rewrite Hp, Hv.
      destruct v; try reflexivity. now destruct (Hns s).
Qed.

(** X4.  No retry and no skipped call: a live request makes exactly one
    outbound call per entry of the medications list plus one generation
    call, whatever the replies and also when it ends in the server error;
    an offline request makes none. *)
Theorem outbound_call_count (p : PatientData) (w : world) :
  List.length (calls (snd (process_patient_data p w))) =
  (List.length (calls w)
   + (if MOCK_MODE then 0 else List.length (medications p) + 1))%nat.
Proof.
  destruct MOCK_MODE eqn:Hmode.
  - rewrite process_mock by assumption. cbn [snd]. lia.
  - destruct (process_live_exact p w Hmode) as (log & w2 & H). cbn zeta in H.
    destruct H as (_ & _ & _ & Hcalls & Hp).
    assert (Hsnd : snd (process_patient_data p w) = w2).
    { rewrite Hp. now destruct (narrative_of _). }
    rewrite Hsnd, Hcalls. cbn [calls]. rewrite !length_app, length_map.
    cbn [List.length]. lia.
Qed.


(** X5.  The drug information of a live request is exactly the
    concatenation, in list order, of what each answer contributes: the first
    two items of a [results] list, the first two characters (as
    one-character items) of a [results] string, and nothing when the search
    raised or the response has no [results]; the one message of the
    generation call that follows the searches holds that sequence. *)
Theorem gather_contributions_exact (p : PatientData) (w : world) :
  MOCK_MODE = false ->
  let drug_info := flat_map contribution (search_replies (calls w) (medications p)) in
  (exists w1, gather_drug_info (medications p) [] w = (Val drug_info, w1)) /\
  exists headers payload timeout msg,
    calls (snd (process_patient_data p w)) =
    calls w ++ map search_request (medications p)
      ++ [POST groq_url headers payload timeout] /\
    messages payload = [msg] /\
    prompt_drug_info (content msg) = drug_info.
Proof.
  intros Hlive. cbn zeta.
  destruct (process_live_exact p w Hlive) as (log & w2 & H). cbn zeta in H.
  destruct H as (Hg & _ & _ & Hcalls & Hp).
  split; [eauto|].
  destruct (generation_request_shape (with_default_vitals p)
              (flat_map contribution (search_replies (calls w) (medications p))))
    as (headers & payload & timeout & msg & Hshape & Hmsgs & _ & Hcontent).
  exists headers, payload, timeout, msg.
  split; [|split; [exact Hmsgs | now rewrite Hcontent]].
  assert (Hsnd : snd (process_patient_data p w) = w2).
  { rewrite Hp. now destruct (narrative_of _). }
  rewrite Hsnd, Hcalls, <- Hshape. cbn [calls]. now rewrite <- app_assoc.
Qed.

(** X6.  Every search that ends in the [except] branch is logged, and
    nothing else is: the loop prints one line per such search, each
    starting with "Error in drug info search: ", and no line for a search
    that returned. *)
Theorem gather_logs_each_failure (meds : list str) (acc : list json) (w : world) :
  MOCK_MODE = false ->
  exists log drug_info w1,
    gather_drug_info meds acc w = (Val drug_info, w1) /\
    stdout w1 = stdout w ++ log /\
    List.length log =
      List.length (filter search_raises (search_replies (calls w) meds)) /\
    Forall (fun line => starts_with (lit "Error in drug info search: ") line = true) log.
Proof.
  intros Hlive.
  destruct (gather_live_exact meds Hlive acc w) as (log & Hlen & Hall & Hg).
  exists log. eexists _, _. split; [exact Hg|]. split; [reflexivity|]. split; [exact Hlen|].
  eapply Forall_impl; [|exact Hall].
  intros line [message ->]. apply starts_with_spec. now exists message.
Qed.

(** X7.  The classifier matches keywords in any letter case and inside any
    context: a text that contains, anywhere, an ASCII spelling whose
    lower-case form is one of the five keywords is labelled "HIGH RISK",
    whatever precedes and follows it. *)
Theorem keyword_in_any_case_is_high_risk (pre spelling post keyword : str) :
  In keyword high_risk_terms ->
  forallb is_ascii spelling = true ->
  map lower_ascii spelling = keyword ->
  get_risk_level (pre ++ spelling ++ post) = lit "HIGH RISK".
Proof.
  intros Hin Hascii Hlow. apply get_risk_level_high.
  exists keyword. split; [exact Hin|].
  unfold lower.
  destruct (lower_from_app pre [] (spelling ++ post)) as [lowered H].
  rewrite H, (lower_from_ascii_prefix spelling Hascii), Hlow.
  now exists lowered, (lower_from (([] ++ pre) ++ spelling) post).
Qed.

(** X8.  An offline response depends on the request only through the
    patient id, the age, the allergies and the number of medications: two
    requests that agree on these get the same response, whatever their
    vitals and whatever the names of their medications. *)
Theorem mock_response_ignores_names_and_vitals (p q : PatientData) (w : world) :
  MOCK_MODE = true ->
  patient_id p = patient_id q ->
  age p = age q ->
  allergies p = allergies q ->
  List.length (medications p) = List.length (medications q) ->
  process_patient_data p w = process_patient_data q w.
Proof.
  intros Hmock Hid Hage Hall Hlen.
  rewrite !process_mock by assumption.
  unfold assemble, flag_narrative, fired_flags, flag_fires, flag_text.
  now rewrite Hid, Hage, Hall, Hlen.
Qed.

(** X9.  The offline narrative of a patient with allergies ends with
    "Known allergies: " followed by the allergies joined with ", ", so every
    declared allergy can be read in it. *)
Theorem declared_allergies_appear_in_mock_narrative (p : PatientData) (w : world) :
  allergies p <> [] ->
  exists text before,
    mock_risk_analysis p w = (Val text, w) /\
    text = before ++ lit "Known allergies: " ++ join (lit ", ") (allergies p) /\
    forall a, In a (allergies p) -> substring a text.
Proof.
  intros Hne.
  assert (Hshape : exists before,
    flag_narrative p = before ++ lit "Known allergies: " ++ join (lit ", ") (allergies p)).
  { unfold flag_narrative, fired_flags, flag_fires. cbn [filter].
    destruct (allergies p) as [|a rest] eqn:Ha; [now destruct Hne|].
    destruct (65 <? age p), (2 <? List.length (medications p))%nat;
      cbn [List.length Nat.eqb negb map flag_text join]; rewrite Ha.
    - exists (lit "HIGH RISK: " ++ lit "Elderly patient - increased risk" ++ lit "; "
              ++ lit "Multiple medications - potential interactions" ++ lit "; ").
      now rewrite <- !app_assoc.
    - exists (lit "HIGH RISK: " ++ lit "Elderly patient - increased risk" ++ lit "; ").
      now rewrite <- !app_assoc.
    - exists (lit "HIGH RISK: " ++ lit "Multiple medications - potential interactions"
              ++ lit "; ").
      now rewrite <- !app_assoc.
    - now exists (lit "HIGH RISK: "). }
  destruct Hshape as [before Hshape].
  exists (flag_narrative p), before.
  split; [apply mock_risk_analysis_flags|]. split; [exact Hshape|].
  intros a Hin. rewrite Hshape.
  destruct (substring_join (lit ", ") a (allergies p) Hin) as (x & y & Hxy).
  rewrite Hxy. exists (before ++ lit "Known allergies: " ++ x), y.
  now rewrite <- !app_assoc.
Qed.

(** X10.  Vitals that the request supplies are passed on unchanged, also
    when the mapping is empty: the placeholder is used for a missing value
    only, and the one message of the generation call of a live request
    holds the supplied mapping as the current vitals. *)
Theorem supplied_vitals_are_kept (p : PatientData) (v : list (str * number))
        (w : world) :
  vitals p = Some v ->
  MOCK_MODE = false ->
  exists headers payload timeout msg,
    calls (snd (process_patient_data p w)) =
    calls w ++ map search_request (medications p)
      ++ [POST groq_url headers payload timeout] /\
    messages payload = [msg] /\
    prompt_vitals (content msg) = Some v.
Proof.
  intros Hv Hlive.
  destruct (process_live_exact p w Hlive) as (log & w2 & H). cbn zeta in H.
  destruct H as (_ & _ & _ & Hcalls & Hp).
  destruct (generation_request_shape (with_default_vitals p)
              (flat_map contribution (search_replies (calls w) (medications p))))
    as (headers & payload & timeout & msg & Hshape & Hmsgs & _ & Hcontent).
  exists headers, payload, timeout, msg.
  split; [|split; [exact Hmsgs|]].
  - assert (Hsnd : snd (process_patient_data p w) = w2).
    { rewrite Hp. now destruct (narrative_of _). }
    rewrite Hsnd, Hcalls, <- Hshape. cbn [calls]. now rewrite <- app_assoc.
  - rewrite Hcontent. unfold with_default_vitals. rewrite Hv. exact Hv.
Qed.

(** X11.  A response says "LIVE" exactly when both credentials are set to
    non-empty strings; a credential that is unset or set to the empty
    string puts the whole process in mock mode. *)
Theorem live_mode_iff_both_credentials (p : PatientData) (w w' : world)
        (resp : response_payload) :
  process_patient_data p w = (Val resp, w') ->
  (mode resp = lit "LIVE" \/ mode resp = lit "MOCK") /\
  (mode resp = lit "LIVE" <->
   exists g t,
     GROQ_API_KEY = Some g /\ TAVILY_API_KEY = Some t /\ g <> [] /\ t <> []).
Proof.
  intros H.
  destruct (gather_total (medications p) [] w) as (di & w1 & Hg).
  destruct (analyze_total (with_default_vitals p) di w1) as (v & w2 & Ha).
  rewrite (@process_after_narrator p w w1 w2 di v Hg Ha) in H.
  destruct v; try discriminate. injection H as <- _.
  cbn [mode assemble]. unfold MOCK_MODE, missing.
  destruct GROQ_API_KEY as [[|c g]|], TAVILY_API_KEY as [[|d t]|]; cbn [orb];
    (split; [auto|]); split;
    try discriminate;
    try (intros (g' & t' & Hg' & Ht' & Hgne & Htne);
         inversion Hg'; inversion Ht'; subst; congruence).
  intros _. exists (c :: g), (d :: t). repeat split; discriminate.
Qed.

(** X12.  A response echoes the patient id of the request, carries the
    narrative the label was computed from, and its timestamp is read from
    the clock in the final world: in live mode after the last outbound
    call, which is the generation call. *)
Theorem response_echoes_id_and_reads_clock_last (p : PatientData) (w w' : world)
        (resp : response_payload) :
  process_patient_data p w = (Val resp, w') ->
  resp_patient_id resp = patient_id p /\
  timestamp resp = now_isoformat w' /\
  (MOCK_MODE = false ->
   exists drug_info,
     calls w' = calls w ++ map search_request (medications p)
                ++ [generation_request (with_default_vitals p) drug_info]).
Proof.
  intros H. destruct MOCK_MODE eqn:Hmode.
  - rewrite process_mock in H by assumption. injection H as <- <-.
    repeat split. discriminate.
  - destruct (process_live_exact p w Hmode) as (log & w2 & Hx). cbn zeta in Hx.
    destruct Hx as (_ & _ & _ & Hcalls & Hp).
    rewrite Hp in H.
    destruct (narrative_of _); try discriminate. injection H as <- <-.
    repeat split. intros _. eexists. rewrite Hcalls. cbn [calls].
    now rewrite <- app_assoc.
Qed.


(** X13.  Offline, the loop fabricates exactly one result per entry of the
    medications list, in list order, each titled after its medication, and
    leaves the world untouched; the narrator then ignores what was
    gathered. *)
Theorem mock_gather_one_result_per_medication (meds : list str) (w : world) :
  MOCK_MODE = true ->
  exists drug_info,
    gather_drug_info meds [] w = (Val drug_info, w) /\
    List.length drug_info = List.length meds /\
    (forall i m,
        nth_error meds i = Some m ->
        exists entries,
          nth_error drug_info i = Some (JDict entries) /\
          dict_get entries (lit "title") = Some (JStr (lit "Information about " ++ m))) /\
    (forall p other w0,
        analyze_risks_with_groq p drug_info w0 = analyze_risks_with_groq p other w0).
Proof.
  intros Hmock. exists (map mock_result meds).
  split; [now apply gather_mock|]. split; [apply length_map|]. split.
  - intros i m Hnth. eexists. split.
    + rewrite nth_error_map, Hnth. reflexivity.
    + reflexivity.
  - intros p other w0. now rewrite !analyze_mock.
Qed.

(** X14.  In live mode, when the generation reply carries a string at
    choices[0].message.content, the endpoint succeeds whatever the searches
    did: the response carries that string as narrative, the classifier's
    label of it, the number of submitted medications and the mode "LIVE". *)
Theorem live_response_carries_reply_text (p : PatientData) (w w1 : world)
        (drug_info : list json) (text : str) :
  MOCK_MODE = false ->
  gather_drug_info (medications p) [] w = (Val drug_info, w1) ->
  reply_content
    (net (calls w1) (generation_request (with_default_vitals p) drug_info))
  = Some (JStr text) ->
  exists resp w2,
    process_patient_data p w = (Val resp, w2) /\
    risk_analysis resp = text /\
    risk_level resp = get_risk_level text /\
    analyzed_medications resp = Z.of_nat (List.length (medications p)) /\
    mode resp = lit "LIVE".
Proof.
  intros Hlive Hg Hsome.
  destruct (analyze_live_exact (with_default_vitals p) drug_info w1 Hlive)
    as (w2 & Ha & _ & _).
  cbn zeta in Ha. unfold narrative_of in Ha. rewrite Hsome in Ha.
  eexists _, w2. split; [exact (@process_after_narrator p w w1 w2 _ _ Hg Ha)|].
  cbn [risk_analysis risk_level analyzed_medications mode assemble].
  rewrite Hlive. repeat split.
Qed.

End Service.

(** ** The statements on the sample inputs *)

Local Abbreviation offline_process :=
  (process_patient_data identity_case_table sample_str_of_exn
     net_first_search_times_out sample_clock None None).

Local Abbreviation live_process net :=
  (process_patient_data identity_case_table sample_str_of_exn net sample_clock
     sample_key sample_key).

Example classifier_mixed_case :
  get_risk_level identity_case_table (lit "Overall: High Risk of bleeding") = lit "HIGH RISK" /\
  get_risk_level identity_case_table (lit "SEVERE hypotension possible") = lit "HIGH RISK" /\
  get_risk_level identity_case_table (lit "this combination is dangerous") = lit "HIGH RISK" /\
  get_risk_level identity_case_table (lit "No interaction expected") = lit "LOW RISK".
Proof. repeat split. Qed.

Example lower_keeps_non_letters :
  lower identity_case_table (lit "HIGH RISK: Age 70+") = lit "high risk: age 70+".
Proof. reflexivity. Qed.

Lemma get_risk_level_keywords_witness :
  get_risk_level identity_case_table (lit "Interaction is SEVERE; seek care") = lit "HIGH RISK" /\
  get_risk_level identity_case_table (lit "No interaction expected") = lit "LOW RISK".
Proof.
  pose proof (get_risk_level_keywords identity_case_table sample_str_of_exn
                net_first_search_times_out sample_clock None None) as H.
  split.
  - apply (proj1 (proj2 (H _))). exists (lit "severe"). split.
    + simpl. auto.
    + exists (lit "interaction is "), (lit "; seek care"). reflexivity.
  - apply (proj1 (proj2 (proj2 (H _)))). intros k Hin Hsub.
    apply contains_spec in Hsub.
    simpl in Hin. decompose [or] Hin; subst; try discriminate Hsub; contradiction.
Defined.

Lemma search_failure_isolated_witness :
  (forall hist url headers payload timeout v,
      reply_content (net_first_search_times_out hist (POST url headers payload timeout))
      = Some v ->
      exists text, v = JStr text) /\
  MOCK_MODE sample_key sample_key = false /\
  call_failed
    (net_first_search_times_out [] (search_request sample_key (lit "aspirin"))) = true /\
  (exists resp w2,
      live_process net_first_search_times_out patient_without_vitals empty_world
      = (Val resp, w2)) /\
  exists headers payload timeout msg,
    calls (snd (live_process net_first_search_times_out patient_without_vitals
                  empty_world)) =
    [search_request sample_key (lit "aspirin");
     search_request sample_key (lit "lisinopril");
     POST groq_url headers payload timeout] /\
    messages payload = [msg] /\
    prompt_drug_info (content msg) = [search_hit "first"; search_hit "second"].
Proof.
  assert (Hcontract : forall hist url headers payload timeout v,
    reply_content (net_first_search_times_out hist (POST url headers payload timeout))
    = Some v -> exists text, v = JStr text).
  { intros hist url headers payload timeout v H. injection H as <-. eauto. }
  split; [exact Hcontract|]. split; [reflexivity|]. split; [reflexivity|].
  destruct (search_failure_isolated identity_case_table sample_str_of_exn
              net_first_search_times_out sample_clock sample_key sample_key
              patient_without_vitals empty_world) as (Hsuccess & Hlive).
  split; [exact (Hsuccess Hcontract)|].
  destruct (Hlive eq_refl)
    as (_ & _ & per & w1 & headers & payload & timeout & msg
        & Hper & _ & Hcalls & Hmsgs & Hinfo).
  assert (Hper' : per = [[]; [search_hit "first"; search_hit "second"]]).
  { inversion Hper as [|r1 i1 rs1 is1 H1 Hrest]; subst.
    inversion Hrest as [|r2 i2 rs2 is2 H2 Hnil]; subst.
    inversion Hnil; subst.
    destruct H1 as (_ & H1 & _). destruct H2 as (_ & _ & H2).
    rewrite (H1 eq_refl). now rewrite (H2 _ eq_refl). }
  subst per.
  exists headers, payload, timeout, msg.
  split; [exact Hcalls|]. split; [exact Hmsgs | exact Hinfo].
Defined.

Lemma mock_mode_no_network_call_witness :
  (missing None = true \/ missing sample_key = true) /\
  exists resp,
    process_patient_data identity_case_table sample_str_of_exn
      net_search_down_null_content sample_clock None sample_key
      patient_without_vitals empty_world = (Val resp, empty_world) /\
    mode resp = lit "MOCK".
Proof.
  split; [left; reflexivity|].
  apply (mock_mode_no_network_call identity_case_table sample_str_of_exn
           net_search_down_null_content sample_clock None sample_key).
  left. reflexivity.
Defined.

Lemma mock_risk_level_agrees_with_flags_witness :
  MOCK_MODE None None = true /\
  exists resp,
    offline_process patient_without_vitals empty_world = (Val resp, empty_world) /\
    risk_level resp = lit "HIGH RISK".
Proof.
  split; [reflexivity|].
  destruct (mock_risk_level_agrees_with_flags identity_case_table sample_str_of_exn
              net_first_search_times_out sample_clock None None
              patient_without_vitals empty_world eq_refl)
    as (resp & Hp & Hhigh & _).
  exists resp. split; [exact Hp|].
  apply Hhigh. right. right. discriminate.
Defined.


Lemma live_drug_info_first_two_in_order_witness :
  MOCK_MODE sample_key sample_key = false /\
  results_array (Response search_response_ok) =
    Some [search_hit "first"; search_hit "second"; search_hit "third"] /\
  exists drug_info,
    calls (snd (live_process net_first_search_times_out patient_without_vitals empty_world)) =
    [search_request sample_key (lit "aspirin");
     search_request sample_key (lit "lisinopril");
     generation_request sample_key (with_default_vitals patient_without_vitals) drug_info] /\
    (List.length drug_info <= 4)%nat.
Proof.
  split; [reflexivity|]. split; [reflexivity|].
  destruct (live_drug_info_first_two_in_order identity_case_table sample_str_of_exn
              net_first_search_times_out sample_clock sample_key sample_key
              patient_without_vitals empty_world eq_refl)
    as (per & Hper & _ & Hcalls & _).
  exists (List.concat per). split; [exact Hcalls|].
  inversion Hper as [|r1 i1 rs1 is1 [H1 _] Hrest]; subst.
  inversion Hrest as [|r2 i2 rs2 is2 [H2 _] Hnil]; subst.
  inversion Hnil; subst.
  cbn [List.concat]. rewrite !length_app. cbn [List.length]. lia.
Defined.

Lemma end_to_end_offline_example_witness :
  MOCK_MODE None None = true /\
  exists resp,
    offline_process patient_MH001 empty_world = (Val resp, empty_world) /\
    risk_level resp = lit "LOW RISK" /\
    analyzed_medications resp = 1 /\
    mode resp = lit "MOCK".
Proof.
  split; [reflexivity|].
  destruct (end_to_end_offline_example identity_case_table sample_str_of_exn
              net_first_search_times_out sample_clock None None empty_world eq_refl)
    as (resp & Hp & _ & Hlevel & _ & Hcount & Hmode).
  exists resp. repeat split; assumption.
Defined.


Lemma analyzed_medications_is_input_length_witness :
  MOCK_MODE None None = true /\
  exists resp,
    offline_process patient_without_vitals empty_world = (Val resp, empty_world) /\
    analyzed_medications resp = 2.
Proof.
  split; [reflexivity|].
  apply (proj1 (proj2 (analyzed_medications_is_input_length identity_case_table
                         sample_str_of_exn net_first_search_times_out sample_clock
                         None None patient_without_vitals empty_world))).
  reflexivity.
Defined.

(** ** Where the specification and the code part *)


(** ** The further properties on the sample inputs *)

Example contribution_of_text_results :
  contribution (Response search_response_text_results) = [JStr (lit "n"); JStr (lit "o")] /\
  contribution (Response search_response_ok) = [search_hit "first"; search_hit "second"] /\
  contribution (Response {| status := 200; body := Some (JDict []) |}) = [] /\
  contribution (Response {| status := 404; body := body search_response_ok |}) = [].
Proof. repeat split. Qed.

Lemma narrator_returns_reply_content_witness :
  MOCK_MODE sample_key sample_key = false /\
  exists w',
    analyze_risks_with_groq sample_str_of_exn net_first_search_times_out
      sample_key sample_key patient_MH002 [] empty_world
    = (Val (JStr (lit "Monitor blood pressure.")), w') /\
    stdout w' = [].
Proof.
  split; [reflexivity|].
  destruct (@narrator_returns_reply_content sample_str_of_exn net_first_search_times_out
              sample_key sample_key patient_MH002 [] empty_world eq_refl)
    as (w' & _ & Hsome & _).
  exists w'. apply (Hsome (JStr (lit "Monitor blood pressure."))). reflexivity.
Defined.

Lemma degraded_response_is_low_risk_witness :
  MOCK_MODE sample_key sample_key = false /\
  age patient_MH002 > 65 /\
  exists resp w2,
    live_process net_generation_unavailable patient_MH002 empty_world = (Val resp, w2) /\
    risk_analysis resp = lit "Unable to perform risk analysis" /\
    risk_level resp = lit "LOW RISK".
Proof.
  split; [reflexivity|]. split; [reflexivity|].
  eapply (@degraded_response_is_low_risk identity_case_table sample_str_of_exn
            net_generation_unavailable sample_clock sample_key sample_key
            patient_MH002 empty_world).
  - reflexivity.
  - vm_compute. reflexivity.
  - reflexivity.
Defined.

Lemma endpoint_error_only_from_non_text_narrative_witness :
  fst (live_process net_search_down_null_content patient_without_vitals empty_world) =
  Raise (HTTPException 500 (sample_str_of_exn (AttributeError JNull (lit "lower")))).
Proof.
  destruct (@endpoint_error_only_from_non_text_narrative identity_case_table
              sample_str_of_exn net_search_down_null_content sample_clock
              sample_key sample_key patient_without_vitals empty_world)
    as (di & w1 & Hg & _ & Hraise).
  vm_compute in Hg. injection Hg as <- <-.
  apply Hraise; [reflexivity | reflexivity | discriminate].
Defined.

Lemma gather_contributions_exact_witness :
  MOCK_MODE sample_key sample_key = false /\
  (exists w1,
      gather_drug_info sample_str_of_exn net_results_as_text sample_key sample_key
        (medications patient_MH001) [] empty_world
      = (Val [JStr (lit "n"); JStr (lit "o")], w1)) /\
  exists headers payload timeout msg,
    calls (snd (live_process net_results_as_text patient_MH001 empty_world)) =
    [search_request sample_key (lit "ibuprofen"); POST groq_url headers payload timeout] /\
    messages payload = [msg] /\
    prompt_drug_info (content msg) = [JStr (lit "n"); JStr (lit "o")].
Proof.
  split; [reflexivity|].
  exact (@gather_contributions_exact identity_case_table sample_str_of_exn
           net_results_as_text sample_clock sample_key sample_key
           patient_MH001 empty_world eq_refl).
Defined.

Lemma gather_logs_each_failure_witness :
  MOCK_MODE sample_key sample_key = false /\
  exists log drug_info w1,
    gather_drug_info sample_str_of_exn net_first_search_times_out sample_key sample_key
      (medications patient_without_vitals) [] empty_world = (Val drug_info, w1) /\
    stdout w1 = log /\
    List.length log = 1%nat.
Proof.
  split; [reflexivity|].
  destruct (@gather_logs_each_failure sample_str_of_exn net_first_search_times_out
              sample_key sample_key (medications patient_without_vitals) []
              empty_world eq_refl)
    as (log & di & w1 & Hg & Hout & Hlen & _).
  exists log, di, w1. repeat split; assumption.
Defined.

Lemma keyword_in_any_case_is_high_risk_witness :
  In (lit "dangerous") high_risk_terms /\
  get_risk_level identity_case_table (lit "Not Dangerous at this dose.") = lit "HIGH RISK".
Proof.
  split; [simpl; auto|].
  apply (@keyword_in_any_case_is_high_risk identity_case_table
           (lit "Not ") (lit "Dangerous") (lit " at this dose.") (lit "dangerous")).
  - simpl. auto.
  - reflexivity.
  - reflexivity.
Defined.

Lemma mock_response_ignores_names_and_vitals_witness :
  MOCK_MODE None None = true /\
  medications patient_without_vitals <> medications patient_renamed /\
  vitals patient_without_vitals <> vitals patient_renamed /\
  offline_process patient_without_vitals empty_world =
  offline_process patient_renamed empty_world.
Proof.
  split; [reflexivity|]. split; [discriminate|]. split; [discriminate|].
  apply (@mock_response_ignores_names_and_vitals identity_case_table sample_str_of_exn
           net_first_search_times_out sample_clock None None
           patient_without_vitals patient_renamed empty_world); reflexivity.
Defined.

Lemma declared_allergies_appear_in_mock_narrative_witness :
  allergies patient_MH002 <> [] /\
  exists text,
    mock_risk_analysis patient_MH002 empty_world = (Val text, empty_world) /\
    substring (lit "penicillin") text.
Proof.
  split; [discriminate|].
  destruct (@declared_allergies_appear_in_mock_narrative patient_MH002 empty_world)
    as (text & before & Hrun & _ & Hin); [discriminate|].
  exists text. split; [exact Hrun|]. apply Hin. simpl. auto.
Defined.

Lemma supplied_vitals_are_kept_witness :
  vitals (set_vitals patient_without_vitals (Some [])) = Some [] /\
  MOCK_MODE sample_key sample_key = false /\
  exists headers payload timeout msg,
    calls (snd (live_process net_first_search_times_out
                  (set_vitals patient_without_vitals (Some [])) empty_world)) =
    [search_request sample_key (lit "aspirin");
     search_request sample_key (lit "lisinopril");
     POST groq_url headers payload timeout] /\
    messages payload = [msg] /\
    prompt_vitals (content msg) = Some [].
Proof.
  split; [reflexivity|]. split; [reflexivity|].
  exact (@supplied_vitals_are_kept identity_case_table sample_str_of_exn
           net_first_search_times_out sample_clock sample_key sample_key
           (set_vitals patient_without_vitals (Some [])) [] empty_world
           eq_refl eq_refl).
Defined.

Lemma live_mode_iff_both_credentials_witness :
  exists resp w',
    process_patient_data identity_case_table sample_str_of_exn
      net_first_search_times_out sample_clock sample_key (Some [])
      patient_MH001 empty_world = (Val resp, w') /\
    mode resp <> lit "LIVE".
Proof.
  eexists _, _. split; [vm_compute; reflexivity|].
  intros Hlive.
  destruct (proj1 (proj2 (@live_mode_iff_both_credentials identity_case_table
                            sample_str_of_exn net_first_search_times_out sample_clock
                            sample_key (Some []) patient_MH001 empty_world _ _ eq_refl))
                  Hlive)
    as (g & t & _ & Ht & _ & Hne).
  injection Ht as <-. now apply Hne.
Defined.

Lemma response_echoes_id_and_reads_clock_last_witness :
  exists resp w',
    live_process net_first_search_times_out patient_without_vitals empty_world
    = (Val resp, w') /\
    resp_patient_id resp = lit "MH-004" /\
    timestamp resp = sample_clock w'.
Proof.
  eexists _, _. split; [vm_compute; reflexivity|].
  destruct (@response_echoes_id_and_reads_clock_last identity_case_table
              sample_str_of_exn net_first_search_times_out sample_clock
              sample_key sample_key patient_without_vitals empty_world _ _ eq_refl)
    as (Hid & Hstamp & _).
  split; [exact Hid | exact Hstamp].
Defined.

Lemma mock_gather_one_result_per_medication_witness :
  MOCK_MODE None sample_key = true /\
  exists drug_info,
    gather_drug_info sample_str_of_exn net_search_down_null_content None sample_key
      (medications patient_MH002) [] empty_world = (Val drug_info, empty_world) /\
    List.length drug_info = 4%nat.
Proof.
  split; [reflexivity|].
  destruct (@mock_gather_one_result_per_medication sample_str_of_exn
              net_search_down_null_content None sample_key
              (medications patient_MH002) empty_world eq_refl)
    as (di & Hg & Hlen & _).
  exists di. split; [exact Hg | exact Hlen].
Defined.

Lemma live_response_carries_reply_text_witness :
  MOCK_MODE sample_key sample_key = false /\
  exists resp w2,
    live_process net_results_as_text patient_MH001 empty_world = (Val resp, w2) /\
    risk_analysis resp = lit "Not Dangerous at this dose." /\
    risk_level resp = lit "HIGH RISK".
Proof.
  split; [reflexivity|].
  destruct (@live_response_carries_reply_text identity_case_table sample_str_of_exn
              net_results_as_text sample_clock sample_key sample_key
              patient_MH001 empty_world
              (snd (gather_drug_info sample_str_of_exn net_results_as_text
                      sample_key sample_key (medications patient_MH001) [] empty_world))
              [JStr (lit "n"); JStr (lit "o")]
              (lit "Not Dangerous at this dose.") eq_refl eq_refl eq_refl)
    as (resp & w2 & Hp & Htext & Hlevel & _).
  exists resp, w2. split; [exact Hp|]. split; [exact Htext|].
  rewrite Hlevel. reflexivity.
Defined.
